(** * Batch embedding extraction and student selection
  (model_distillation_colab_notebook.ipynb)

  A shallow embedding of the notebook's own logic: the batching loop of
  [get_model_embeddings], the notebook cells that bind [texts], [labels]
  and [embeddings], and the choice of the best student classifier.

  The tokenizer, the encoder, the classifiers and the dataset are external
  collaborators: they are parameters of the development.  Tensor entries
  are floating-point numbers in the notebook; here they are exact rationals
  ([Qc]), so a mean is the exact quotient of a sum by a count. *)

From Stdlib Require Import Ascii String DecimalString ZArith QArith Qcanon.
From Stdlib Require Import Lia Arith Bool List.
Import ListNotations.

Set Implicit Arguments.
Set Warnings "-abstract-large-number".
Local Open Scope nat_scope.
Local Open Scope list_scope.

(* ===================================================================== *)
(** * Part I: definitions                                                 *)
(* ===================================================================== *)

(** ** The fragment of the Python runtime the notebook relies on *)

Module Py.

(** A raised exception: its class and its message. *)
Inductive exn : Type :=
| Exn (cls : string) (msg : string).

(** The outcome of evaluating an expression: a value or a raised
    exception. *)
Inductive result (A : Type) : Type :=
| Ok (a : A)
| Raise (e : exn).
Arguments Ok {A} a.
Arguments Raise {A} e.

Definition is_ok {A} (r : result A) : bool :=
  match r with Ok _ => true | Raise _ => false end.

(** [range(start, stop, step)] for a non-negative [step]: the numbers
    [start], [start + step], ... below [stop].  The loop needs at most
    [stop] rounds when [step >= 1]. *)
Fixpoint range_from (fuel start stop step : nat) : list nat :=
  match fuel with
  | O => []
  | S fuel' =>
      if start <? stop
      then start :: range_from fuel' (start + step) stop step
      else []
  end.

Definition range (start stop step : nat) : result (list nat) :=
  match step with
  | O => Raise (Exn "ValueError" "range() arg 3 must not be zero")
  | S _ => Ok (range_from stop start stop step)
  end.

(** [l[i:j]] for non-negative bounds: out-of-range bounds are clipped. *)
Definition slice {A} (l : list A) (i j : nat) : list A :=
  firstn (j - i) (skipn i l).

(** [lst.append(x)] *)
Definition append {A} (lst : list A) (x : A) : list A := lst ++ [x].

(** [max(iterable, key=key)]: the first element whose key is maximal;
    [ValueError] on an empty iterable. *)
Fixpoint max_from {A} (key : A -> Qc) (best : A) (rest : list A) : A :=
  match rest with
  | [] => best
  | x :: rest' =>
      if Qclt_le_dec (key best) (key x)
      then max_from key x rest'
      else max_from key best rest'
  end.

Definition max {A} (iterable : list A) (key : A -> Qc) : result A :=
  match iterable with
  | [] => Raise (Exn "ValueError" "max() arg is an empty sequence")
  | x :: rest => Ok (max_from key x rest)
  end.

(** [str(n)] for a non-negative integer, as an f-string prints it. *)
Definition str (n : nat) : string := NilZero.string_of_uint (Nat.to_uint n).

(** The double-quote character, as a string. *)
Definition quote : string := String (ascii_of_nat 34) EmptyString.

End Py.

Import Py.

(** ** Tensors *)

Module Tensor.

(** A vector of [hidden_size] numbers. *)
Definition vec := list Qc.

(** One text's hidden states: a vector per token position. *)
Definition states := list vec.

(** The encoder's [last_hidden_state], of shape
    [(batch, sequence, hidden)]. *)
Definition tensor3 := list states.

Definition Qc_of_nat (n : nat) : Qc := Q2Qc (inject_Z (Z.of_nat n)).

Definition Qcsum (l : list Qc) : Qc := fold_right Qcplus 0%Qc l.

(** Component [d] of a vector. *)
Definition component (d : nat) (v : vec) : Qc := nth d v 0%Qc.

(** The mean of one text's hidden states over the sequence axis, for
    hidden states of [hidden_size] components: component [d] is the sum of
    component [d] over every position, divided by the number of
    positions. *)
Definition mean_states (hidden_size : nat) (hs : states) : vec :=
  map (fun d => (Qcsum (map (component d) hs) / Qc_of_nat (length hs))%Qc)
      (seq 0 hidden_size).

(** [t.mean(dim=1)] on a tensor of shape [(batch, sequence, hidden)]. *)
Definition mean_dim1 (hidden_size : nat) (t : tensor3) : list vec :=
  map (mean_states hidden_size) t.

(** A numpy array of rank at most two: its shape and its rows. *)
Record ndarray : Type := mk_ndarray {
  shape : list nat;
  data : list vec
}.

(** [np.array(rows)] on a list of equally long one-dimensional arrays:
    an empty list gives the one-dimensional empty array of shape [(0,)],
    [n > 0] rows of length [d] give shape [(n, d)].  Rows of unequal
    length, which numpy refuses, come only from an encoder that changes
    its hidden size between calls. *)
Definition np_array (rows : list vec) : ndarray :=
  match rows with
  | [] => mk_ndarray [0] []
  | r :: _ => mk_ndarray [length rows; length r] rows
  end.

End Tensor.

Import Tensor.

(** ** The embedding extractor *)

Module Extractor.

(** What the tokenizer returns for a batch: one row of token ids and one
    row of attention-mask bits (1 = real token, 0 = padding) per text. *)
Record BatchEncoding : Type := mk_encoding {
  input_ids : list (list Z);
  attention_mask : list (list Z)
}.

(** A call to an external collaborator. *)
Inductive call : Type :=
| TokenizerCall (batch_texts : list string) (max_len : nat)
| ModelCall (inputs : BatchEncoding).

(** The state the extractor runs in: the process-wide gradient mode of
    torch and the calls made so far to the collaborators. *)
Record World : Type := mk_world {
  grad_enabled : bool;
  calls : list call
}.

(** Computations that read and write the world and may raise. *)
Definition M (A : Type) : Type := World -> result A * World.

Definition ret {A} (a : A) : M A := fun w => (Ok a, w).

Definition bind {A B} (m : M A) (k : A -> M B) : M B :=
  fun w =>
    match m w with
    | (Ok a, w') => k a w'
    | (Raise e, w') => (Raise e, w')
    end.

Definition lift {A} (r : result A) : M A := fun w => (r, w).

Notation "x <- m ;; k" := (bind m (fun x => k))
  (at level 61, m at next level, right associativity).

(** [for x in xs: s = body(x, s)] *)
Fixpoint for_each {A S} (xs : list A) (body : A -> S -> M S) (s : S) : M S :=
  match xs with
  | [] => ret s
  | x :: xs' => s' <- body x s ;; for_each xs' body s'
  end.

Definition set_grad_enabled (b : bool) (w : World) : World :=
  mk_world b (calls w).

Definition record_call (c : call) (w : World) : World :=
  mk_world (grad_enabled w) (calls w ++ [c]).

(** [with torch.no_grad(): body]: gradient tracking is switched off for
    the body and the previous mode is restored on exit, whether the body
    returns or raises. *)
Definition no_grad {A} (body : M A) : M A :=
  fun w =>
    let prev := grad_enabled w in
    let (r, w') := body (set_grad_enabled false w) in
    (r, set_grad_enabled prev w').

(** [max_length = 128] (the configuration cell). *)
Definition max_length : nat := 128.

(** [v.to(device)] moves a tensor and keeps its contents. *)
Definition to_device (inputs : BatchEncoding) : BatchEncoding := inputs.

Section WithCollaborators.

(** [tokenizer(batch, return_tensors="pt", padding="max_length",
    truncation=True, max_length=n)] *)
Variable tokenizer : list string -> nat -> result BatchEncoding.

(** The [last_hidden_state] the encoder returns when it is called on the
    tokenizer's output with [output_hidden_states=True]. *)
Variable model : BatchEncoding -> result tensor3.

(** The encoder's hidden size [D]. *)
Variable hidden_size : nat.

Definition call_tokenizer (batch_texts : list string) : M BatchEncoding :=
  fun w =>
    (tokenizer batch_texts max_length,
     record_call (TokenizerCall batch_texts max_length) w).

Definition call_model (inputs : BatchEncoding) : M tensor3 :=
  fun w => (model inputs, record_call (ModelCall inputs) w).

(** The body of the batching loop, for the batch that starts at [i]. *)
Definition process_batch (batch_size : nat) (texts : list string)
    (i : nat) (embeddings : list vec) : M (list vec) :=
  let batch_texts := slice texts i (i + batch_size) in
  no_grad (
    inputs <- call_tokenizer batch_texts ;;
    let inputs := to_device inputs in
    last_hidden_state <- call_model inputs ;;
    let mean_embeddings := mean_dim1 hidden_size last_hidden_state in
    ret (fold_left (fun embs emb => append embs emb)
                   mean_embeddings embeddings)).

(** [get_model_embeddings] with its local constant [batch_size] taken
    as an argument.  [tqdm] hands the loop the numbers of the range as they
    are and draws a progress bar; the bar is left out. *)
Definition get_model_embeddings_with (batch_size : nat)
    (texts : list string) : M ndarray :=
  starts <- lift (range 0 (length texts) batch_size) ;;
  embeddings <- for_each starts (process_batch batch_size texts) [] ;;
  ret (np_array embeddings).

(** [batch_size = 8] *)
Definition batch_size : nat := 8.

Definition get_model_embeddings (texts : list string) : M ndarray :=
  get_model_embeddings_with batch_size texts.

(** The batches the loop goes through, in order. *)
Definition batches (batch_size : nat) (texts : list string)
    : list (list string) :=
  map (fun i => slice texts i (i + batch_size))
      (range_from (length texts) 0 (length texts) batch_size).

(** The two collaborators in sequence on one batch, as the loop body
    calls them. *)
Definition encode (batch_texts : list string) : result tensor3 :=
  match tokenizer batch_texts max_length with
  | Ok inputs => model (to_device inputs)
  | Raise e => Raise e
  end.

(** The whole corpus handed to the collaborators as one batch. *)
Definition single_call (texts : list string) : M ndarray :=
  embeddings <- process_batch (length texts) texts 0 [] ;;
  ret (np_array embeddings).

End WithCollaborators.

End Extractor.

Import Extractor.

(** ** The notebook cells around the extractor *)

Module Notebook.

(** [num_samples = 1000] (the configuration cell). *)
Definition num_samples : nat := 1000.

(** The global names the cells bind.  Before a cell binds a name its field
    holds an empty value. *)
Record Globals : Type := mk_globals {
  texts : list string;
  labels : list Z;
  embeddings : ndarray;
  X_train : list vec;
  X_test : list vec;
  y_train : list Z;
  y_test : list Z
}.

Definition unbound : Globals :=
  mk_globals [] [] (mk_ndarray [0] []) [] [] [] [].

Definition set_corpus (t : list string) (l : list Z) (g : Globals) : Globals :=
  mk_globals t l (embeddings g) (X_train g) (X_test g) (y_train g) (y_test g).

Definition set_embeddings (e : ndarray) (g : Globals) : Globals :=
  mk_globals (texts g) (labels g) e (X_train g) (X_test g) (y_train g)
             (y_test g).

Definition set_split (s : list vec * list vec * list Z * list Z)
    (g : Globals) : Globals :=
  let '(xtr, xte, ytr, yte) := s in
  mk_globals (texts g) (labels g) (embeddings g) xtr xte ytr yte.

(** [X[idx]]: the rows of [X] at the positions [idx]. *)
Definition take {A} (default : A) (X : list A) (idx : list nat) : list A :=
  map (fun i => nth i X default) idx.

(** What the datasets library raises for a selection that holds no row. *)
Definition no_data (instruction : string) : exn :=
  Exn "ValueError"
      (String.append "Instruction "
         (String.append quote
            (String.append instruction
               (String.append quote " corresponds to no data!")))).

Section WithData.

(** The rows [(text, label)] of the train split of the dataset. *)
Variable imdb_train : list (string * Z).

Variable tokenizer : list string -> nat -> result BatchEncoding.
Variable teacher_model : BatchEncoding -> result tensor3.
Variable hidden_size : nat.

(** The positions sklearn's stratified shuffle puts in the training set and
    in the test set, given the labels it stratifies on. *)
Variable split_indices : list Z -> list nat * list nat.

(** The rows the selection [train[a:b]] names; bounds past the end of the
    split are clipped. *)
Definition selection (a b : nat) : list (string * Z) :=
  slice imdb_train a b.

(** [load_dataset("imdb", split=instruction)] for an instruction that
    names the rows [train[a:b]]: the library refuses a selection that holds
    no row. *)
Definition load_dataset (instruction : string) (a b : nat)
    : result (list (string * Z)) :=
  match selection a b with
  | [] => Raise (no_data instruction)
  | rows => Ok rows
  end.

Definition column_text (rows : list (string * Z)) : list string :=
  map fst rows.

Definition column_label (rows : list (string * Z)) : list Z :=
  map snd rows.

(** The corpus of step 5, from which the embeddings are extracted. *)
Definition extracted_texts : list string :=
  column_text (selection 0 num_samples).

(** The corpus and the labels of step 8. *)
Definition balanced_texts : list string :=
  column_text (selection 0 (num_samples / 2)) ++
  column_text (selection 12500 (12500 + num_samples / 2)).

Definition balanced_labels : list Z :=
  column_label (selection 0 (num_samples / 2)) ++
  column_label (selection 12500 (12500 + num_samples / 2)).

(** The message of sklearn's check that both arrays have as many rows. *)
Definition inconsistent_samples (n m : nat) : string :=
  String.append
    "Found input variables with inconsistent numbers of samples: ["
    (String.append (str n) (String.append ", " (String.append (str m) "]"))).

(** [train_test_split(X, y, test_size=0.2, random_state=42, stratify=y)]:
    the arrays must have as many rows, and both are then indexed by the
    same positions.  The positions are the splitter's; a splitter that
    refuses the labels is not described. *)
Definition train_test_split (X : ndarray) (y : list Z)
    : result (list vec * list vec * list Z * list Z) :=
  if length (data X) =? length y
  then
    let (train, test) := split_indices y in
    Ok (take [] (data X) train, take [] (data X) test,
        take 0%Z y train, take 0%Z y test)
  else Raise (Exn "ValueError"
                  (inconsistent_samples (length (data X)) (length y))).

(** Step 5: [texts] and [labels] are the first [num_samples] rows,
    loaded with [split=f"train[:{num_samples}]"]. *)
Definition cell_prepare_dataset (g : Globals) : M Globals :=
  dataset <- lift (load_dataset
                     (String.append "train[:"
                        (String.append (str num_samples) "]"))
                     0 num_samples) ;;
  ret (set_corpus (column_text dataset) (column_label dataset) g).

(** Step 7: [embeddings = get_model_embeddings(texts, tokenizer,
    teacher_model)]. *)
Definition cell_extract_embeddings (g : Globals) : M Globals :=
  e <- get_model_embeddings tokenizer teacher_model hidden_size (texts g) ;;
  ret (set_embeddings e g).

(** Step 8: [texts] and [labels] are bound again, to the balanced corpus,
    and [embeddings] and [labels] are split. *)
Definition cell_split (g : Globals) : M Globals :=
  pos_examples <- lift (load_dataset
                          (String.append "train[0:"
                             (String.append (str (num_samples / 2)) "]"))
                          0 (num_samples / 2)) ;;
  neg_examples <- lift (load_dataset
                          (String.append "train[12500:"
                             (String.append
                                (str (12500 + num_samples / 2)) "]"))
                          12500 (12500 + num_samples / 2)) ;;
  let g := set_corpus (column_text pos_examples ++ column_text neg_examples)
                      (column_label pos_examples ++ column_label neg_examples)
                      g in
  s <- lift (train_test_split (embeddings g) (labels g)) ;;
  ret (set_split s g).

(** The cells in the order of the notebook, up to the split. *)
Definition run_to_split : M Globals :=
  g <- cell_prepare_dataset unbound ;;
  g <- cell_extract_embeddings g ;;
  cell_split g.

End WithData.

End Notebook.

(** ** Training the students and choosing the best one *)

Module Students.

(** A Python dict: the keys in insertion order with their values. *)
Definition dict (V : Type) : Type := list (string * V).

Fixpoint get {V} (d : dict V) (k : string) : option V :=
  match d with
  | [] => None
  | (k', v) :: d' => if String.eqb k k' then Some v else get d' k
  end.

(** [d[k] = v]: an existing key keeps its position. *)
Fixpoint set {V} (d : dict V) (k : string) (v : V) : dict V :=
  match d with
  | [] => [(k, v)]
  | (k', v') :: d' =>
      if String.eqb k k' then (k, v) :: d' else (k', v') :: set d' k v
  end.

Definition keys {V} (d : dict V) : list string := map fst d.

(** [d[k]], raising [KeyError] on a missing key. *)
Definition getitem {V} (d : dict V) (k : string) : result V :=
  match get d k with
  | Some v => Ok v
  | None => Raise (Exn "KeyError" k)
  end.

(** [accuracy_score(y_true, y_pred)]: the fraction of positions where the
    prediction is the label. *)
Definition accuracy_score (y_true y_pred : list Z) : Qc :=
  (Qc_of_nat (length (filter (fun p => Z.eqb (fst p) (snd p))
                             (combine y_true y_pred)))
   / Qc_of_nat (length y_true))%Qc.

(** The files written so far: path and stored object. *)
Definition files (V : Type) : Type := list (string * V).

(** [joblib.dump(obj, path)] *)
Definition joblib_dump {V} (obj : V) (path : string) (fs : files V) : files V :=
  (path, obj) :: fs.

Section WithClassifiers.

Variable classifier : Type.

(** [model.fit(X, y)] updates the classifier in place: the result is the
    state of the same object afterwards. *)
Variable fit : classifier -> list vec -> list Z -> classifier.
Variable predict : classifier -> list vec -> list Z.

(** The three students of step 9. *)
Definition models (lr rf mlp : classifier) : dict classifier :=
  [("Logistic Regression"%string, lr);
   ("Random Forest"%string, rf);
   ("MLP (Neural Network)"%string, mlp)].

(** One round of the training loop.  [model] is the object stored under
    [name], so fitting it updates [models[name]]. *)
Definition train_one (X_train X_test : list vec) (y_train y_test : list Z)
    (st : dict classifier * dict Qc) (item : string * classifier)
    : dict classifier * dict Qc :=
  let (models, results) := st in
  let (name, model) := item in
  let model := fit model X_train y_train in
  let y_pred := predict model X_test in
  let accuracy := accuracy_score y_test y_pred in
  (set models name model, set results name accuracy).

(** Step 9: [for name, model in models.items(): ...], starting with
    [results = {}]. *)
Definition train_students (models : dict classifier)
    (X_train X_test : list vec) (y_train y_test : list Z)
    : dict classifier * dict Qc :=
  fold_left (train_one X_train X_test y_train y_test) models (models, []).

(** [results.get]; [max] only applies it to keys of [results]. *)
Definition results_get (results : dict Qc) (k : string) : Qc :=
  match get results k with
  | Some a => a
  | None => 0%Qc
  end.

(** Step 10: [best_model_name = max(results, key=results.get)] *)
Definition best_model_name (results : dict Qc) : result string :=
  Py.max (keys results) (results_get results).

(** Step 11: [best_model = models[best_model_name]] and
    [joblib.dump(best_model, 'distilled_model.joblib')]. *)
Definition save_best (models : dict classifier) (results : dict Qc)
    (fs : files classifier) : result (files classifier) :=
  match best_model_name results with
  | Raise e => Raise e
  | Ok name =>
      match getitem models name with
      | Raise e => Raise e
      | Ok best_model =>
          Ok (joblib_dump best_model "distilled_model.joblib"%string fs)
      end
  end.

End WithClassifiers.

End Students.

(** ** Step 9 with the calls that may raise *)

Module TrainingCell.

(** The names the cell binds and updates; [train_times], which holds
    wall-clock durations, is left out. *)
Record Bindings (classifier : Type) : Type := mk_bindings {
  models : Students.dict classifier;
  results : Students.dict Qc;
  all_predictions : Students.dict (list Z)
}.
Arguments mk_bindings {classifier} _ _ _.
Arguments models {classifier} _.
Arguments results {classifier} _.
Arguments all_predictions {classifier} _.

(** [target_names=["Negative", "Positive"]] *)
Definition target_names : list string :=
  ["Negative"%string; "Positive"%string].

Section WithLibrary.

Variable classifier : Type.

(** [model.fit(X, y)]: the state of the classifier afterwards, or the
    exception it raises (the classifier is then taken as left as it
    was). *)
Variable fit : classifier -> list vec -> list Z -> result classifier.
Variable predict : classifier -> list vec -> result (list Z).
Variable accuracy_score : list Z -> list Z -> result Qc.
Variable classification_report :
  list Z -> list Z -> list string -> result string.

Variables X_train X_test : list vec.
Variables y_train y_test : list Z.

(** The body of the loop for one student.  [model] is the object stored
    under [name]; each binding is updated as soon as its value is known, so
    a later call that raises leaves the earlier updates in place. *)
Definition round (item : string * classifier) (st : Bindings classifier)
    : result unit * Bindings classifier :=
  let (name, model) := item in
  match fit model X_train y_train with
  | Raise e => (Raise e, st)
  | Ok model =>
      let st := mk_bindings (Students.set (models st) name model)
                            (results st) (all_predictions st) in
      match predict model X_test with
      | Raise e => (Raise e, st)
      | Ok y_pred =>
          let st := mk_bindings (models st) (results st)
                      (Students.set (all_predictions st) name y_pred) in
          match accuracy_score y_test y_pred with
          | Raise e => (Raise e, st)
          | Ok accuracy =>
              let st := mk_bindings (models st)
                          (Students.set (results st) name accuracy)
                          (all_predictions st) in
              match classification_report y_test y_pred target_names with
              | Raise e => (Raise e, st)
              | Ok _ => (Ok tt, st)
              end
          end
      end
  end.

(** [for name, model in models.items(): ...] *)
Fixpoint rounds (items : list (string * classifier))
    (st : Bindings classifier) : result unit * Bindings classifier :=
  match items with
  | [] => (Ok tt, st)
  | item :: items' =>
      match round item st with
      | (Ok _, st') => rounds items' st'
      | (Raise e, st') => (Raise e, st')
      end
  end.

(** The cell: [results = {}], [all_predictions = {}], then the loop. *)
Definition training_cell (students : Students.dict classifier)
    : result unit * Bindings classifier :=
  rounds students (mk_bindings students [] []).

(** Every call of the loop body returns for the student [c]. *)
Definition calls_return (c : classifier) : Prop :=
  exists c' y_pred accuracy report,
    fit c X_train y_train = Ok c' /\
    predict c' X_test = Ok y_pred /\
    accuracy_score y_test y_pred = Ok accuracy /\
    classification_report y_test y_pred target_names = Ok report.


(** What the calls return for a student, read as functions of the
    student (with a placeholder where a call raises). *)
Definition fitted (c : classifier) : classifier :=
  match fit c X_train y_train with
  | Ok c' => c'
  | Raise _ => c
  end.

Definition predicted (c : classifier) : list Z :=
  match predict (fitted c) X_test with
  | Ok y_pred => y_pred
  | Raise _ => []
  end.

Definition scored (c : classifier) : Qc :=
  match accuracy_score y_test (predicted c) with
  | Ok accuracy => accuracy
  | Raise _ => 0%Qc
  end.

End WithLibrary.

End TrainingCell.

(** ** Reading the extractor's behaviour off the collaborators *)

Module Reading.

(** [map] in the [result] monad, left to right, stopping at the first
    exception. *)
Fixpoint mapM {A B} (f : A -> result B) (l : list A) : result (list B) :=
  match l with
  | [] => Ok []
  | x :: l' =>
      match f x with
      | Raise e => Raise e
      | Ok y =>
          match mapM f l' with
          | Raise e => Raise e
          | Ok ys => Ok (y :: ys)
          end
      end
  end.

Section WithCollaborators.

Variable tokenizer : list string -> nat -> result BatchEncoding.
Variable model : BatchEncoding -> result tensor3.
Variable hidden_size : nat.

(** The tokenizer or the encoder raises [e] on the batch. *)
Definition raises_on (batch_texts : list string) (e : exn) : Prop :=
  tokenizer batch_texts max_length = Raise e \/
  exists inputs,
    tokenizer batch_texts max_length = Ok inputs /\
    model (to_device inputs) = Raise e.

(** The collaborator calls a run over the batches [bs] is expected to make:
    one tokenizer call and one encoder call per batch, and nothing after
    the first call that raises. *)
Fixpoint trace (bs : list (list string)) : list call :=
  match bs with
  | [] => []
  | b :: bs' =>
      TokenizerCall b max_length ::
      match tokenizer b max_length with
      | Raise _ => []
      | Ok inputs =>
          ModelCall (to_device inputs) ::
          match model (to_device inputs) with
          | Raise _ => []
          | Ok _ => trace bs'
          end
      end
  end.

(** The rows a run over the batches [bs] is expected to add to [acc]. *)
Fixpoint pooled (bs : list (list string)) (acc : list vec)
    : result (list vec) :=
  match bs with
  | [] => Ok acc
  | b :: bs' =>
      match encode tokenizer model b with
      | Raise e => Raise e
      | Ok t => pooled bs' (acc ++ mean_dim1 hidden_size t)
      end
  end.

(** The tokenizer's side of the interface: with [padding="max_length"] and
    [truncation=True] it returns one row of ids and one row of mask bits per
    text, each of exactly the requested length. *)
Definition pads_to_length : Prop :=
  forall batch n inputs,
    tokenizer batch n = Ok inputs ->
    length (input_ids inputs) = length batch /\
    length (attention_mask inputs) = length batch /\
    Forall (fun ids => length ids = n) (input_ids inputs) /\
    Forall (fun bits => length bits = n) (attention_mask inputs).

(** The encoder's side of the interface: one hidden state per token
    position of every row it is given. *)
Definition keeps_shape : Prop :=
  forall inputs t,
    model inputs = Ok t ->
    Forall2 (fun ids hs => length hs = length ids) (input_ids inputs) t.

(** The encoder has one hidden size: every hidden state it returns, in
    every call, has [hidden_size] components. *)
Definition fixed_width : Prop :=
  forall inputs t,
    model inputs = Ok t ->
    Forall (Forall (fun v : vec => length v = hidden_size)) t.

(** The collaborators treat each text of a batch on its own: encoding a
    batch is encoding its texts one by one, in order. *)
Definition rowwise (encode1 : string -> result states) : Prop :=
  forall batch, encode tokenizer model batch = mapM encode1 batch.

End WithCollaborators.

(** The number of real tokens an attention-mask row announces. *)
Definition true_length (mask : list Z) : nat :=
  length (filter (Z.eqb 1) mask).

(** The hidden states at the real (non-padding) positions. *)
Definition real_states (hs : states) (mask : list Z) : states :=
  map fst (filter (fun p => Z.eqb 1 (snd p)) (combine hs mask)).

(** Mean pooling restricted by the attention mask, as the specification
    words it: the arithmetic mean of the hidden-state vectors over the
    real token positions only. *)
Definition masked_mean_states (hidden_size : nat) (hs : states)
    (mask : list Z) : vec :=
  mean_states hidden_size (real_states hs mask).

End Reading.

(** ** A small tokenizer and encoder to run the definitions on *)

Module Toy.

(** One token per character: its code. *)
Definition char_ids (s : string) : list Z :=
  map (fun c => Z.of_nat (Ascii.nat_of_ascii c)) (list_ascii_of_string s).

(** Truncation to [n] tokens, then padding with token 0 up to [n]. *)
Definition pad_ids (n : nat) (ids : list Z) : list Z :=
  firstn n ids ++ repeat 0%Z (n - length ids).

Definition pad_mask (n : nat) (ids : list Z) : list Z :=
  repeat 1%Z (Nat.min n (length ids)) ++ repeat 0%Z (n - length ids).

Definition char_tokenizer (batch : list string) (n : nat)
    : result BatchEncoding :=
  Ok (mk_encoding (map (fun s => pad_ids n (char_ids s)) batch)
                  (map (fun s => pad_mask n (char_ids s)) batch)).

(** Hidden size 1: the hidden state at a position is the token id. *)
Definition id_encoder (inputs : BatchEncoding) : result tensor3 :=
  Ok (map (map (fun id => [Q2Qc (inject_Z id)])) (input_ids inputs)).

(** A tokenizer that refuses the empty text. *)
Definition strict_tokenizer (batch : list string) (n : nat)
    : result BatchEncoding :=
  if existsb (String.eqb "") batch
  then Raise (Exn "ValueError" "empty text")
  else char_tokenizer batch n.

Definition world0 : World := mk_world true [].

(** A dataset laid out like the train split: 12500 negative reviews, then
    positive ones. *)
Definition review (i : nat) : string * Z :=
  if i <? 12500 then ("bad"%string, 0%Z) else ("good"%string, 1%Z).

Definition imdb_like : list (string * Z) := map review (seq 0 13000).

(** A splitter that keeps the first 800 places for training. *)
Definition first_rows (y : list Z) : list nat * list nat :=
  (seq 0 800, seq 800 200).

(** A text of exactly [max_length] characters. *)
Definition full_text : string :=
  string_of_list_ascii (repeat "a"%char max_length).

(** The hidden states of one text under [char_tokenizer] and
    [id_encoder]. *)
Definition encode1 (s : string) : result states :=
  Ok (map (fun id => [Q2Qc (inject_Z id)]) (pad_ids max_length (char_ids s))).

(** The two texts of the specification's scenario, and a corpus one text
    longer than a batch. *)
Definition two_texts : list string :=
  ["good movie"%string; "bad movie"%string].

Definition nine_texts : list string :=
  ["a"; "b"; "c"; "d"; "e"; "f"; "g"; "h"; "i"]%string.

End Toy.

(** ** Step 5: showing one review of each class *)

Module Preview.

(** [enumerate(l)] *)
Definition enumerate {A} (l : list A) : list (nat * A) :=
  combine (seq 0 (length l)) l.

(** [next(items, default)] on a generator that has not been advanced: its
    first item, or [default] when it has none. *)
Definition next {A} (items : list A) (default : A) : A :=
  match items with
  | [] => default
  | x :: _ => x
  end.

(** [next((i for i, x in enumerate(labels) if x == v), 0)] *)
Definition first_index (v : Z) (labels : list Z) : nat :=
  next (map fst (filter (fun ix => Z.eqb (snd ix) v) (enumerate labels))) 0.

Definition pos_idx (labels : list Z) : nat := first_index 1 labels.

Definition neg_idx (labels : list Z) : nat := first_index 0 labels.

(** [l[i]] for a non-negative index. *)
Definition getitem {A} (l : list A) (i : nat) : result A :=
  match nth_error l i with
  | Some x => Ok x
  | None => Raise (Exn "IndexError" "list index out of range")
  end.

(** The line printed for an example: [f"{texts[idx][:300]}..."]. *)
Definition preview (texts : list string) (idx : nat) : result string :=
  match getitem texts idx with
  | Ok text => Ok (String.append (substring 0 300 text) "...")
  | Raise e => Raise e
  end.

End Preview.

(** ** Counting the calls of a run *)

Module Calls.

Definition is_tokenizer_call (c : call) : bool :=
  match c with
  | TokenizerCall _ _ => true
  | ModelCall _ => false
  end.

Definition is_model_call (c : call) : bool :=
  match c with
  | TokenizerCall _ _ => false
  | ModelCall _ => true
  end.

(** The calls a computation adds to the log of the world it starts in. *)
Definition new_calls {A} (m : M A) (w : World) : list call :=
  skipn (length (calls w)) (calls (snd (m w))).

End Calls.

(** ** More small inputs to run the definitions on *)

Module Samples.

(** A corpus that fills one batch exactly. *)
Definition eight_texts : list string :=
  ["a"; "b"; "c"; "d"; "e"; "f"; "g"; "h"]%string.

Definition mixed_labels : list Z := [0; 0; 1; 1]%Z.

Definition negative_labels : list Z := [0; 0]%Z.


(** Students that answer one fixed label: fitting adds the size of the
    training set to the label. *)
Definition constant_fit (c : Z) (X : list vec) (y : list Z) : Z :=
  (c + Z.of_nat (length X))%Z.

Definition constant_predict (c : Z) (X : list vec) : list Z :=
  map (fun _ => c) X.

(** A small library for step 9: scoring refuses an empty test set and
    predictions of another length, the report refuses labels that do not
    hold as many classes as there are target names. *)
Definition checked_accuracy (y_true y_pred : list Z) : result Qc :=
  if (length y_true =? 0) || negb (length y_true =? length y_pred)
  then Raise (Exn "ValueError" "inconsistent or empty input")
  else Ok (Students.accuracy_score y_true y_pred).

Definition checked_report (y_true y_pred : list Z) (names : list string)
    : result string :=
  if length (nodup Z.eq_dec (y_true ++ y_pred)) =? length names
  then Ok "report"%string
  else Raise (Exn "ValueError" "Number of classes does not match").

Definition checked_fit (c : Z) (X : list vec) (y : list Z) : result Z :=
  Ok (constant_fit c X y).

Definition checked_predict (c : Z) (X : list vec) : result (list Z) :=
  Ok (constant_predict c X).

(** Two rows with the labels 0 and 1. *)
Definition two_rows : list vec := [[Q2Qc 1]; [Q2Qc 2]].

Definition two_classes : list Z := [0; 1]%Z.

End Samples.

(* ===================================================================== *)
(** * Part II: theorems                                                   *)
(* ===================================================================== *)

Unset Implicit Arguments.

(** ** Lists, slices and ranges *)

Module ListFacts.

Lemma slice_from_zero {A} (l : list A) (n : nat) :
  slice l 0 n = firstn n l.
Proof. unfold slice. rewrite Nat.sub_0_r. reflexivity. Qed.

Lemma slice_width {A} (l : list A) (i b : nat) :
  slice l i (i + b) = firstn b (skipn i l).
Proof. unfold slice. replace (i + b - i) with b by lia. reflexivity. Qed.

Lemma slice_all {A} (l : list A) :
  slice l 0 (0 + length l) = l.
Proof. rewrite slice_width. simpl. apply firstn_all. Qed.

Lemma range_from_fuel (step : nat) :
  0 < step ->
  forall f1 f2 start stop,
    stop - start <= f1 -> stop - start <= f2 ->
    range_from f1 start stop step = range_from f2 start stop step.
Proof.
  intros Hstep f1.
  induction f1 as [|f1 IH]; intros f2 start stop H1 H2.
  - destruct f2 as [|f2]; [reflexivity|].
    simpl. destruct (Nat.ltb_spec start stop); [lia | reflexivity].
  - destruct f2 as [|f2]; simpl.
    + destruct (Nat.ltb_spec start stop); [lia | reflexivity].
    + destruct (Nat.ltb_spec start stop); [|reflexivity].
      f_equal. apply IH; lia.
Qed.

Lemma range_from_empty (fuel start stop step : nat) :
  stop <= start -> range_from fuel start stop step = [].
Proof.
  intros H. destruct fuel; simpl; [reflexivity|].
  destruct (Nat.ltb_spec start stop); [lia | reflexivity].
Qed.

Lemma slices_shift {A} (l : list A) (b : nat) :
  forall fuel i,
    map (fun i => slice l i (i + b))
        (range_from fuel (i + b) (length l) b) =
    map (fun i => slice (skipn b l) i (i + b))
        (range_from fuel i (length l - b) b).
Proof.
  induction fuel as [|fuel IH]; intros i; simpl; [reflexivity|].
  destruct (Nat.ltb_spec (i + b) (length l));
    destruct (Nat.ltb_spec i (length l - b)); try lia; [|reflexivity].
  simpl. f_equal.
  - rewrite !slice_width. rewrite skipn_skipn. reflexivity.
  - apply IH.
Qed.

Section Batches.

Variable B : nat.
Hypothesis B_pos : 0 < B.

Lemma batches_nil : batches B [] = [].
Proof. reflexivity. Qed.

Lemma batches_unfold (texts : list string) :
  texts <> [] ->
  batches B texts = firstn B texts :: batches B (skipn B texts).
Proof.
  intros Hne. unfold batches.
  destruct texts as [|t texts']; [congruence|].
  set (l := t :: texts').
  change (length l) with (S (length texts')) at 1.
  cbn [range_from].
  assert (Hlt : (0 <? length l) = true) by (apply Nat.ltb_lt; simpl; lia).
  rewrite Hlt. cbn [map]. f_equal.
  - apply slice_from_zero.
  - rewrite (slices_shift l B (length texts') 0).
    rewrite length_skipn. f_equal.
    apply range_from_fuel; [assumption | subst l; cbn [length]; lia | lia].
Qed.

(** Induction along the batches: the empty corpus, or a first batch
    followed by the batches of the rest. *)
Lemma batches_ind (P : list string -> list (list string) -> Prop) :
  P [] [] ->
  (forall texts,
      texts <> [] ->
      P (skipn B texts) (batches B (skipn B texts)) ->
      P texts (firstn B texts :: batches B (skipn B texts))) ->
  forall texts, P texts (batches B texts).
Proof.
  intros Hnil Hcons texts.
  remember (length texts) as n eqn:Hn.
  revert texts Hn.
  induction n as [n IH] using lt_wf_ind; intros texts Hn.
  destruct texts as [|t texts'].
  - exact Hnil.
  - rewrite batches_unfold by congruence.
    apply Hcons; [congruence|].
    apply (IH (length (skipn B (t :: texts')))); [|reflexivity].
    rewrite length_skipn. subst n. cbn [length]. lia.
Qed.

Lemma concat_batches (texts : list string) :
  concat (batches B texts) = texts.
Proof.
  apply (batches_ind (fun texts bs => concat bs = texts)).
  - reflexivity.
  - intros l _ IH. simpl. rewrite IH. apply firstn_skipn.
Qed.

End Batches.

End ListFacts.

(** ** The batching loop *)

Module LoopFacts.

Import ListFacts Reading.

Lemma fold_append {A} (l acc : list A) :
  fold_left (fun embs emb => append embs emb) l acc = acc ++ l.
Proof.
  revert acc. induction l as [|x l IH]; intros acc; simpl.
  - symmetry. apply app_nil_r.
  - rewrite IH. unfold append. rewrite <- app_assoc. reflexivity.
Qed.

Lemma nth_slice {A} (l : list A) (i b j : nat) (d : A) :
  j < b -> nth j (slice l i (i + b)) d = nth (i + j) l d.
Proof.
  intros Hj. rewrite slice_width, nth_firstn.
  destruct (Nat.ltb_spec j b); [|lia].
  apply nth_skipn.
Qed.

Lemma length_slice {A} (l : list A) (i b : nat) :
  length (slice l i (i + b)) = Nat.min b (length l - i).
Proof. rewrite slice_width, length_firstn, length_skipn. reflexivity. Qed.

Lemma nth_concat_blocks {A} (B : nat) (d : A) :
  forall (ls : list (list A)) (k j : nat),
    (forall k' l, k' < k -> nth_error ls k' = Some l -> length l = B) ->
    j < length (nth k ls []) ->
    nth (k * B + j) (concat ls) d = nth j (nth k ls []) d.
Proof.
  induction ls as [|l ls IH]; intros k j Hfull Hj.
  - destruct k; simpl in Hj; lia.
  - destruct k as [|k]; simpl.
    + simpl in Hj. apply app_nth1. exact Hj.
    + assert (Hl : length l = B) by (apply (Hfull 0); [lia | reflexivity]).
      rewrite app_nth2 by lia.
      replace (B + k * B + j - length l) with (k * B + j) by lia.
      apply IH.
      * intros k' l' Hk' Hnth. apply (Hfull (S k')); [lia | exact Hnth].
      * exact Hj.
Qed.

Section Batches.

Variable B : nat.
Hypothesis B_pos : 0 < B.

Lemma nth_error_batches (texts : list string) (k : nat) :
  nth_error (batches B texts) k =
  if k * B <? length texts
  then Some (slice texts (k * B) (k * B + B))
  else None.
Proof.
  revert k.
  apply (batches_ind B B_pos
           (fun texts bs => forall k,
                nth_error bs k =
                if k * B <? length texts
                then Some (slice texts (k * B) (k * B + B))
                else None)).
  - intros k. destruct k; reflexivity.
  - intros l Hne IH k. destruct k as [|k].
    + simpl. destruct l; [congruence|]. simpl. rewrite slice_from_zero.
      reflexivity.
    + cbn [nth_error]. rewrite IH. rewrite length_skipn.
      destruct (Nat.ltb_spec (k * B) (length l - B));
        destruct (Nat.ltb_spec (S k * B) (length l)); try lia;
        [|reflexivity].
      f_equal. rewrite !slice_width, skipn_skipn.
      replace (k * B + B) with (S k * B) by lia. reflexivity.
Qed.

End Batches.

End LoopFacts.

(** ** What a run of the extractor returns and which calls it makes *)

Module RunFacts.

Import ListFacts LoopFacts Reading.

Section WithCollaborators.

Variable tokenizer : list string -> nat -> result BatchEncoding.
Variable model : BatchEncoding -> result tensor3.
Variable hidden_size : nat.

Local Abbreviation encode := (encode tokenizer model).
Local Abbreviation pooled := (pooled tokenizer model hidden_size).
Local Abbreviation trace := (trace tokenizer model).
Local Abbreviation process_batch := (process_batch tokenizer model hidden_size).
Local Abbreviation run_with :=
  (get_model_embeddings_with tokenizer model hidden_size).

(** The loop, read as a function of the batches it slices. *)
Lemma for_each_batches (batch_size : nat) (texts : list string) :
  forall (starts : list nat) (acc : list vec) (w : World),
    let bs := map (fun i => slice texts i (i + batch_size)) starts in
    for_each starts (process_batch batch_size texts) acc w =
    (pooled bs acc, mk_world (grad_enabled w) (calls w ++ trace bs)).
Proof.
  induction starts as [|i starts IH]; intros acc w; cbn zeta.
  - simpl. unfold ret. rewrite app_nil_r. destruct w; reflexivity.
  - cbn [for_each map Reading.pooled Reading.trace].
    unfold bind at 1.
    unfold process_batch at 1, no_grad, bind, call_tokenizer, call_model,
      Extractor.encode, set_grad_enabled, record_call.
    destruct (tokenizer (slice texts i (i + batch_size)) max_length)
      as [inputs|e]; cbn.
    + destruct (model (to_device inputs)) as [t|e]; cbn.
      * rewrite fold_append. cbn zeta in IH. rewrite IH. cbn.
        do 2 f_equal. repeat rewrite <- List.app_assoc. reflexivity.
      * do 2 f_equal. rewrite <- List.app_assoc. reflexivity.
    + reflexivity.
Qed.

(** A run with a positive batch size. *)
Lemma run_with_batches (B : nat) (texts : list string) (w : World) :
  0 < B ->
  run_with B texts w =
  (match pooled (batches B texts) [] with
   | Ok rows => Ok (np_array rows)
   | Raise e => Raise e
   end,
   mk_world (grad_enabled w) (calls w ++ trace (batches B texts))).
Proof.
  intros HB. unfold get_model_embeddings_with, range.
  destruct B as [|B']; [lia|].
  unfold bind at 1. unfold lift at 1.
  unfold bind at 1. rewrite for_each_batches.
  fold (batches (S B') texts).
  destruct (pooled (batches (S B') texts) []); reflexivity.
Qed.

Lemma single_call_run (texts : list string) (w : World) :
  single_call tokenizer model hidden_size texts w =
  (match encode texts with
   | Ok t => Ok (np_array (mean_dim1 hidden_size t))
   | Raise e => Raise e
   end,
   mk_world (grad_enabled w) (calls w ++ trace [texts])).
Proof.
  unfold single_call. unfold bind at 1.
  pose proof (for_each_batches (length texts) texts [0] [] w) as H.
  cbn [for_each map] in H. cbn zeta in H.
  unfold bind at 1 in H. unfold ret in H.
  rewrite slice_all in H.
  destruct (process_batch (length texts) texts 0 [] w) as [[rows|e] w'].
  - cbn [Reading.pooled] in H. destruct (encode texts) as [t|e].
    + inversion H. reflexivity.
    + discriminate H.
  - cbn [Reading.pooled] in H. destruct (encode texts) as [t|e'].
    + discriminate H.
    + inversion H. reflexivity.
Qed.

(** The rows added when every batch goes through. *)
Lemma pooled_ok_inv :
  forall (bs : list (list string)) (acc rows : list vec),
    pooled bs acc = Ok rows ->
    exists ts,
      Forall2 (fun b t => encode b = Ok t) bs ts /\
      rows = acc ++ concat (map (mean_dim1 hidden_size) ts).
Proof.
  induction bs as [|b bs IH]; intros acc rows H; simpl in H.
  - inversion H. exists []. split; [constructor|].
    simpl. symmetry. apply app_nil_r.
  - destruct (encode b) as [t|e] eqn:Hb; [|discriminate].
    destruct (IH _ _ H) as (ts & Hts & Hrows).
    exists (t :: ts). split; [constructor; assumption|].
    rewrite Hrows. simpl. rewrite <- app_assoc. reflexivity.
Qed.

Lemma pooled_ok :
  forall (bs : list (list string)) (acc : list vec),
    (forall b, In b bs -> is_ok (encode b) = true) ->
    exists rows, pooled bs acc = Ok rows.
Proof.
  induction bs as [|b bs IH]; intros acc H; simpl.
  - eexists; reflexivity.
  - assert (Hb : is_ok (encode b) = true) by (apply H; left; reflexivity).
    destruct (encode b) as [t|e]; [|discriminate].
    apply IH. intros b' Hin. apply H. right. exact Hin.
Qed.

(** The loop raises exactly the exception of the first batch on which a
    collaborator raises. *)
Lemma pooled_raise_iff :
  forall (bs : list (list string)) (acc : list vec) (e : exn),
    pooled bs acc = Raise e <->
    exists k b,
      nth_error bs k = Some b /\ encode b = Raise e /\
      forall k' b', k' < k -> nth_error bs k' = Some b' ->
                    is_ok (encode b') = true.
Proof.
  induction bs as [|b bs IH]; intros acc e; simpl.
  - split; [discriminate|].
    intros (k & b & Hk & _). destruct k; discriminate.
  - destruct (encode b) as [t|e0] eqn:Hb.
    + rewrite IH. split.
      * intros (k & b' & Hk & He & Hbefore).
        exists (S k), b'. repeat split; try assumption.
        intros k' b'' Hlt Hnth. destruct k' as [|k'].
        -- simpl in Hnth. inversion Hnth; subst. rewrite Hb. reflexivity.
        -- apply (Hbefore k'); [lia | exact Hnth].
      * intros (k & b' & Hk & He & Hbefore). destruct k as [|k].
        -- simpl in Hk. inversion Hk; subst. congruence.
        -- exists k, b'. repeat split; try assumption.
           intros k' b'' Hlt Hnth. apply (Hbefore (S k')); [lia | exact Hnth].
    + split.
      * intros H. inversion H; subst.
        exists 0, b. repeat split; try assumption.
        intros k' b' Hlt. lia.
      * intros (k & b' & Hk & He & Hbefore). destruct k as [|k].
        -- simpl in Hk. inversion Hk; subst. congruence.
        -- specialize (Hbefore 0 b). rewrite Hb in Hbefore.
           discriminate Hbefore; [lia | reflexivity].
Qed.

Lemma encode_raises (b : list string) (e : exn) :
  encode b = Raise e <-> raises_on tokenizer model b e.
Proof.
  unfold Extractor.encode, raises_on.
  destruct (tokenizer b max_length) as [inputs|e0].
  - split.
    + intros H. right. exists inputs. split; [reflexivity | exact H].
    + intros [H | (inputs' & H1 & H2)]; [discriminate|].
      inversion H1; subst. exact H2.
  - split.
    + intros H. left. congruence.
    + intros [H | (inputs' & H1 & _)]; [congruence | discriminate].
Qed.

End WithCollaborators.

End RunFacts.

(** ** Rows of the result *)

Module RowFacts.

Import ListFacts LoopFacts Reading RunFacts.

Lemma nth_map_lt {A B} (f : A -> B) (l : list A) (i : nat) (d : A) (d' : B) :
  i < length l -> nth i (map f l) d' = f (nth i l d).
Proof.
  intros Hi. rewrite (nth_indep (map f l) d' (f d)).
  - apply map_nth.
  - rewrite length_map. exact Hi.
Qed.

Lemma Forall2_nth {A B} (R : A -> B -> Prop) (la : list A) (lb : list B)
    (da : A) (db : B) :
  Forall2 R la lb ->
  forall k, k < length la -> R (nth k la da) (nth k lb db).
Proof.
  induction 1 as [|a b la lb Hab _ IH]; intros k Hk; simpl in Hk; [lia|].
  destruct k as [|k]; simpl; [exact Hab|].
  apply IH. lia.
Qed.

Lemma nth_error_nth_lt {A} (l : list A) (k : nat) (x d : A) :
  nth_error l k = Some x -> nth k l d = x /\ k < length l.
Proof.
  intros H. split.
  - apply nth_error_nth. exact H.
  - apply nth_error_Some. congruence.
Qed.

Section WithCollaborators.

Variable tokenizer : list string -> nat -> result BatchEncoding.
Variable model : BatchEncoding -> result tensor3.
Variable hidden_size : nat.

Local Abbreviation encode := (encode tokenizer model).
Local Abbreviation run_with :=
  (get_model_embeddings_with tokenizer model hidden_size).

Variable B : nat.
Hypothesis B_pos : 0 < B.

(** The batch that holds text [i], and the place of text [i] in it. *)
Lemma batch_of_text (texts : list string) (i : nat) :
  i < length texts ->
  let b := nth (i / B) (batches B texts) [] in
  nth_error (batches B texts) (i / B) = Some b /\
  b = slice texts (i / B * B) (i / B * B + B) /\
  i mod B < length b /\
  nth (i mod B) b ""%string = nth i texts ""%string.
Proof.
  intros Hi. cbn zeta.
  pose proof (Nat.div_mod_eq i B) as Hdm.
  pose proof (Nat.mod_upper_bound i B ltac:(lia)) as Hmod.
  pose proof (nth_error_batches B B_pos texts (i / B)) as Hk.
  destruct (Nat.ltb_spec (i / B * B) (length texts)) as [Hlt|Hge]; [|nia].
  destruct (nth_error_nth_lt _ _ _ [] Hk) as [Hnth Hlen].
  rewrite Hnth. repeat split.
  - exact Hk.
  - rewrite length_slice. nia.
  - rewrite nth_slice by exact Hmod. f_equal. nia.
Qed.

(** A successful run: the result has one row per text, and row [i] is the
    mean of the hidden states the encoder returned for text [i]. *)
Lemma run_rows (texts : list string) (w : World) :
  (forall b, In b (batches B texts) ->
             exists t, encode b = Ok t /\ length t = length b) ->
  exists arr w' ts,
    run_with B texts w = (Ok arr, w') /\
    Forall2 (fun b t => encode b = Ok t) (batches B texts) ts /\
    data arr = concat (map (mean_dim1 hidden_size) ts) /\
    shape arr = shape (np_array (data arr)) /\
    length (data arr) = length texts /\
    forall i, i < length texts ->
      i mod B < length (nth (i / B) ts []) /\
      nth i (data arr) [] =
      mean_states hidden_size (nth (i mod B) (nth (i / B) ts []) []).
Proof.
  intros Hok.
  rewrite run_with_batches by exact B_pos.
  destruct (pooled_ok tokenizer model hidden_size (batches B texts) [])
    as [rows Hrows].
  { intros b Hb. destruct (Hok b Hb) as (t & Ht & _). rewrite Ht.
    reflexivity. }
  rewrite Hrows.
  destruct (pooled_ok_inv _ _ _ _ _ _ Hrows) as (ts & Hts & Heq).
  simpl in Heq. subst rows.
  set (rows := concat (map (mean_dim1 hidden_size) ts)).
  assert (Hdata : data (np_array rows) = rows)
    by (destruct rows; reflexivity).
  assert (Hlen_ts : length ts = length (batches B texts))
    by (symmetry; eapply Forall2_length; exact Hts).
  assert (Hlen_k : forall k, k < length ts ->
             length (nth k ts []) = length (nth k (batches B texts) [])).
  { intros k Hk.
    pose proof (Forall2_nth _ _ _ [] [] Hts) as Hn.
    specialize (Hn k ltac:(lia)). cbn beta in Hn.
    destruct (Hok (nth k (batches B texts) [])) as (t & Ht & Hl).
    - apply nth_In. lia.
    - rewrite Hn in Ht. injection Ht as Ht. subst t. exact Hl. }
  assert (Hrow : forall i, i < length texts ->
             i mod B < length (nth (i / B) ts []) /\
             nth i rows [] =
             mean_states hidden_size (nth (i mod B) (nth (i / B) ts []) [])).
  { intros i Hi.
    destruct (batch_of_text texts i Hi) as (Hk & Hb & Hj & _).
    destruct (nth_error_nth_lt _ _ _ [] Hk) as [_ Hklen].
    assert (Hjt : i mod B < length (nth (i / B) ts []))
      by (rewrite Hlen_k by lia; exact Hj).
    split; [exact Hjt|].
    pose proof (Nat.div_mod_eq i B) as Hdm.
    replace i with (i / B * B + i mod B) at 1 by lia.
    unfold rows. rewrite (@nth_concat_blocks vec B []).
    - rewrite (@nth_map_lt tensor3 (list vec) _ _ _ [] []) by lia.
      unfold mean_dim1. apply (@nth_map_lt states vec). exact Hjt.
    - intros k' l Hk' Hl.
      destruct (nth_error_nth_lt _ _ _ [] Hl) as [Hnth Hlt].
      rewrite length_map in Hlt.
      rewrite (@nth_map_lt tensor3 (list vec) _ _ _ [] []) in Hnth by exact Hlt.
      subst l. unfold mean_dim1. rewrite length_map, Hlen_k by exact Hlt.
      pose proof (nth_error_batches B B_pos texts k') as Hb'.
      destruct (Nat.ltb_spec (k' * B) (length texts)); [|nia].
      destruct (nth_error_nth_lt _ _ _ [] Hb') as [Hn' _].
      rewrite Hn', length_slice. nia.
    - rewrite (@nth_map_lt tensor3 (list vec) _ _ _ [] []) by lia.
      unfold mean_dim1. rewrite length_map. exact Hjt. }
  assert (Hlen : length rows = length texts).
  { rewrite <- (concat_batches B B_pos texts) at 1.
    unfold rows. clear - Hts Hok.
    induction Hts as [|b t bs ts Hbt _ IH]; [reflexivity|].
    simpl. rewrite !length_app. unfold mean_dim1 at 1. rewrite length_map.
    destruct (Hok b) as (t' & Ht' & Hl); [left; reflexivity|].
    f_equal; [congruence|].
    apply IH. intros b' Hb'. apply Hok. right. exact Hb'. }
  exists (np_array rows), (mk_world (grad_enabled w)
                             (calls w ++ trace tokenizer model
                                           (batches B texts))), ts.
  rewrite Hdata. repeat split; try assumption.
  - apply Hrow; assumption.
  - apply Hrow; assumption.
Qed.

End WithCollaborators.

End RowFacts.

(** ** Properties of [get_model_embeddings] *)

Module ExtractorSpec.

Import ListFacts LoopFacts Reading RunFacts RowFacts.

Section WithCollaborators.

Variable tokenizer : list string -> nat -> result BatchEncoding.
Variable model : BatchEncoding -> result tensor3.
Variable hidden_size : nat.

Local Abbreviation encode := (encode tokenizer model).
Local Abbreviation trace := (trace tokenizer model).
Local Abbreviation run_with :=
  (get_model_embeddings_with tokenizer model hidden_size).
Local Abbreviation run :=
  (get_model_embeddings tokenizer model hidden_size).

Lemma batch_size_pos : 0 < batch_size.
Proof. unfold batch_size. lia. Qed.

(** C1.  When the tokenizer and the encoder accept every batch and the
    encoder returns one block of hidden states per text of the batch,
    [get_model_embeddings] returns an array with exactly one row per input
    text, and row [i] is the mean-pooled hidden states of text [i]: the
    text at place [i mod 8] of batch [i / 8], which is [texts[i]].  No row
    is moved or dropped. *)
Theorem get_model_embeddings_rows_in_order
    (texts : list string) (w : World)
    (Hok : forall b, In b (batches batch_size texts) ->
                     exists t, encode b = Ok t /\ length t = length b) :
  exists arr w',
    run texts w = (Ok arr, w') /\
    length (data arr) = length texts /\
    hd 0 (shape arr) = length texts /\
    forall i, i < length texts ->
      let b := nth (i / batch_size) (batches batch_size texts) [] in
      exists t,
        encode b = Ok t /\
        nth (i mod batch_size) b ""%string = nth i texts ""%string /\
        nth i (data arr) [] =
        mean_states hidden_size (nth (i mod batch_size) t []).
Proof.
  destruct (run_rows tokenizer model hidden_size batch_size batch_size_pos
              texts w Hok)
    as (arr & w' & ts & Hrun & Hts & _ & Hshape & Hlen & Hrow).
  exists arr, w'. repeat split.
  - exact Hrun.
  - exact Hlen.
  - rewrite Hshape, <- Hlen. destruct (data arr); reflexivity.
  - intros i Hi. cbn zeta.
    destruct (batch_of_text batch_size batch_size_pos texts i Hi)
      as (Hk & _ & _ & Htext).
    destruct (nth_error_nth_lt _ _ _ [] Hk) as [_ Hklen].
    exists (nth (i / batch_size) ts []). repeat split.
    + apply (Forall2_nth _ _ _ [] [] Hts). exact Hklen.
    + exact Htext.
    + apply Hrow. exact Hi.
Qed.

(** C3, as the code has it.  On the empty input [get_model_embeddings]
    returns the empty one-dimensional array, of shape [(0,)], and leaves
    the world as it found it: neither the tokenizer nor the encoder is
    called. *)
Theorem get_model_embeddings_empty (w : World) :
  run [] w = (Ok (mk_ndarray [0] []), w) /\
  calls (snd (run [] w)) = calls w.
Proof. split; reflexivity. Qed.

(** C6.  For a positive batch size the collaborators are called on the
    batches [batches B texts], in order, and these are the consecutive
    slices [texts[kB : kB+B]]: put end to end they give the corpus back,
    each holds between 1 and [B] texts, and every slice but the last holds
    exactly [B].  A corpus of [B + 1] texts is processed as
    two batches, of [B] texts and of 1 text, and the rows of the second
    batch come after those of the first. *)
Theorem batches_consecutive (B : nat) (texts : list string) (HB : 0 < B) :
  (forall w,
      calls (snd (run_with B texts w)) = calls w ++ trace (batches B texts)) /\
  concat (batches B texts) = texts /\
  (forall k b,
      nth_error (batches B texts) k = Some b ->
      b = slice texts (k * B) (k * B + B) /\
      1 <= length b <= B /\
      (S k < length (batches B texts) -> length b = B)) /\
  (length texts = B + 1 ->
   batches B texts = [firstn B texts; skipn B texts] /\
   length (firstn B texts) = B /\
   length (skipn B texts) = 1 /\
   forall w t1 t2,
     encode (firstn B texts) = Ok t1 ->
     encode (skipn B texts) = Ok t2 ->
     exists w',
       run_with B texts w =
       (Ok (np_array (mean_dim1 hidden_size t1 ++ mean_dim1 hidden_size t2)),
        w') /\
       calls w' = calls w ++ trace [firstn B texts; skipn B texts]).
Proof.
  split.
  { intros w.
    rewrite (run_with_batches tokenizer model hidden_size B texts w HB).
    reflexivity. }
  split; [apply concat_batches; exact HB|]. split.
  - intros k b Hk.
    pose proof (nth_error_batches B HB texts k) as Hnth.
    rewrite Hk in Hnth.
    destruct (Nat.ltb_spec (k * B) (length texts)) as [Hlt|Hge];
      [|discriminate].
    injection Hnth as ->. split; [reflexivity|].
    rewrite length_slice. split; [lia|].
    intros Hnext.
    apply nth_error_Some in Hnext.
    rewrite (nth_error_batches B HB texts (S k)) in Hnext.
    destruct (Nat.ltb_spec (S k * B) (length texts)); [nia | congruence].
  - intros Hlen.
    assert (Hb : batches B texts = [firstn B texts; skipn B texts]).
    { rewrite (batches_unfold B HB texts)
        by (intros ->; simpl in Hlen; lia).
      assert (Hrest : length (skipn B texts) = 1)
        by (rewrite length_skipn; lia).
      rewrite (batches_unfold B HB (skipn B texts))
        by (intros E; rewrite E in Hrest; discriminate).
      rewrite (@firstn_all2 _ B (skipn B texts)) by lia.
      rewrite (@skipn_all2 _ B (skipn B texts)) by lia.
      reflexivity. }
    split; [exact Hb|].
    split; [rewrite length_firstn; lia|].
    split; [rewrite length_skipn; lia|].
    intros w t1 t2 H1 H2.
    rewrite (run_with_batches tokenizer model hidden_size B texts w HB).
    rewrite Hb. cbn [Reading.pooled]. rewrite H1, H2.
    eexists. split; [reflexivity|]. reflexivity.
Qed.

(** C7.  Two runs of [get_model_embeddings] on the same texts with the same
    tokenizer and encoder, the second started in the world the first left,
    return the same outcome; a run leaves the gradient mode as it found
    it, and the outcome is the same from every starting world. *)
Theorem get_model_embeddings_repeatable (texts : list string) (w : World) :
  let first := run texts w in
  let second := run texts (snd first) in
  fst first = fst second /\
  grad_enabled (snd first) = grad_enabled w /\
  grad_enabled (snd second) = grad_enabled w /\
  forall w0, fst (run texts w0) = fst first.
Proof.
  cbn zeta. unfold get_model_embeddings.
  rewrite !(run_with_batches tokenizer model hidden_size batch_size texts)
    by exact batch_size_pos.
  cbn [fst snd grad_enabled]. repeat split.
  intros w0.
  rewrite (run_with_batches tokenizer model hidden_size batch_size texts w0)
    by exact batch_size_pos.
  reflexivity.
Qed.

(** C8.  For an encoder of one hidden size (every hidden state it returns
    has [hidden_size] components, so that [np.array] is given rows of one
    length): [get_model_embeddings] raises [e] exactly when the tokenizer
    or the encoder raises [e] on some batch and both accepted every batch
    before it; so it raises if and only if a collaborator raises on some
    batch, and the exception is the collaborator's own.  A raised outcome
    carries no array, and the calls made are one tokenizer call and one
    encoder call per batch up to the call that raised, with none after
    it. *)
Theorem get_model_embeddings_raises (texts : list string) (w : World)
    (Hwidth : fixed_width model hidden_size) :
  (forall e,
      fst (run texts w) = Raise e <->
      exists k b,
        nth_error (batches batch_size texts) k = Some b /\
        raises_on tokenizer model b e /\
        forall k' b', k' < k ->
                      nth_error (batches batch_size texts) k' = Some b' ->
                      is_ok (encode b') = true) /\
  (is_ok (fst (run texts w)) = false <->
   exists b e, In b (batches batch_size texts) /\
               raises_on tokenizer model b e) /\
  calls (snd (run texts w)) = calls w ++ trace (batches batch_size texts).
Proof.
  unfold get_model_embeddings.
  rewrite (run_with_batches tokenizer model hidden_size batch_size texts w)
    by exact batch_size_pos.
  cbn [fst snd calls].
  assert (Hraise : forall e,
             match pooled tokenizer model hidden_size
                     (batches batch_size texts) [] with
             | Ok rows => Ok (np_array rows)
             | Raise e0 => Raise e0
             end = Raise e <->
             pooled tokenizer model hidden_size
               (batches batch_size texts) [] = Raise e).
  { intros e.
    destruct (pooled tokenizer model hidden_size (batches batch_size texts) []);
      split; intros H; try discriminate; congruence. }
  split; [|split].
  - intros e. rewrite Hraise, pooled_raise_iff.
    split; intros (k & b & Hk & He & Hbefore); exists k, b;
      (split; [exact Hk|]); (split; [|exact Hbefore]);
      apply encode_raises; exact He.
  - split.
    + intros Hnot.
      destruct (pooled tokenizer model hidden_size
                  (batches batch_size texts) []) as [rows|e] eqn:Hp;
        [discriminate|].
      apply pooled_raise_iff in Hp.
      destruct Hp as (k & b & Hk & He & _).
      exists b, e. split.
      * eapply nth_error_In. exact Hk.
      * apply encode_raises. exact He.
    + intros (b & e & Hin & He).
      destruct (pooled tokenizer model hidden_size
                  (batches batch_size texts) []) as [rows|e'] eqn:Hp;
        [|reflexivity].
      apply pooled_ok_inv in Hp. destruct Hp as (ts & Hts & _).
      apply encode_raises in He.
      apply In_nth_error in Hin. destruct Hin as [k Hk].
      destruct (nth_error_nth_lt _ _ _ [] Hk) as [Hnth Hlt].
      pose proof (Forall2_nth _ _ _ [] [] Hts k Hlt) as Hn.
      cbn beta in Hn. rewrite Hnth, He in Hn. discriminate Hn.
  - reflexivity.
Qed.

End WithCollaborators.

End ExtractorSpec.

(** ** Pooling and batch boundaries *)

Module PoolingSpec.

Import ListFacts LoopFacts Reading RunFacts RowFacts.

Lemma filter_all {A} (f : A -> bool) (l : list A) :
  length (filter f l) = length l -> filter f l = l.
Proof.
  induction l as [|x l IH]; simpl; [reflexivity|].
  pose proof (filter_length_le f l) as Hle.
  destruct (f x); simpl; intros H.
  - f_equal. apply IH. lia.
  - lia.
Qed.

Lemma filter_snd_all {A} (f : Z -> bool) (hs : list A) :
  forall mask,
    length hs = length mask ->
    filter f mask = mask ->
    filter (fun p => f (snd p)) (combine hs mask) = combine hs mask.
Proof.
  induction hs as [|h hs IH]; intros mask Hlen Hall; [reflexivity|].
  destruct mask as [|m mask]; [discriminate|].
  simpl in *. destruct (f m) eqn:Hm.
  - injection Hall as Hall. f_equal. apply IH; [lia | exact Hall].
  - exfalso. pose proof (filter_length_le f mask) as Hle.
    rewrite Hall in Hle. simpl in Hle. lia.
Qed.

Lemma map_fst_combine {A B} (l : list A) :
  forall l' : list B, length l = length l' -> map fst (combine l l') = l.
Proof.
  induction l as [|x l IH]; intros l' Hlen; [reflexivity|].
  destruct l' as [|y l']; [discriminate|].
  simpl. f_equal. apply IH. simpl in Hlen. lia.
Qed.

(** Without a padding position the real states are all the states. *)
Lemma real_states_full (hs : states) (mask : list Z) :
  length hs = length mask ->
  true_length mask = length mask ->
  real_states hs mask = hs.
Proof.
  intros Hlen Hfull. unfold real_states, true_length in *.
  rewrite (filter_snd_all (Z.eqb 1) hs mask Hlen (filter_all _ _ Hfull)).
  apply map_fst_combine. exact Hlen.
Qed.

Lemma mapM_app {A B} (f : A -> result B) (l1 l2 : list A) :
  mapM f (l1 ++ l2) =
  match mapM f l1 with
  | Raise e => Raise e
  | Ok ys1 =>
      match mapM f l2 with
      | Raise e => Raise e
      | Ok ys2 => Ok (ys1 ++ ys2)
      end
  end.
Proof.
  induction l1 as [|x l1 IH]; simpl.
  - destruct (mapM f l2); reflexivity.
  - destruct (f x) as [y|e]; [|reflexivity].
    rewrite IH. destruct (mapM f l1) as [ys1|e]; [|reflexivity].
    destruct (mapM f l2); reflexivity.
Qed.

Section WithCollaborators.

Variable tokenizer : list string -> nat -> result BatchEncoding.
Variable model : BatchEncoding -> result tensor3.
Variable hidden_size : nat.

Local Abbreviation encode := (encode tokenizer model).
Local Abbreviation run_with :=
  (get_model_embeddings_with tokenizer model hidden_size).
Local Abbreviation run :=
  (get_model_embeddings tokenizer model hidden_size).

(** A successful run under the interface of the collaborators: row [i] is
    the mean over the [max_length] hidden states of text [i]. *)
Lemma run_rows_padded (texts : list string) (w : World) :
  pads_to_length tokenizer ->
  keeps_shape model ->
  (forall b, In b (batches batch_size texts) -> is_ok (encode b) = true) ->
  exists arr w',
    run texts w = (Ok arr, w') /\
    forall i, i < length texts ->
      exists inputs t,
        tokenizer (nth (i / batch_size) (batches batch_size texts) [])
                  max_length = Ok inputs /\
        model (to_device inputs) = Ok t /\
        length (nth (i mod batch_size) t []) = max_length /\
        length (nth (i mod batch_size) (attention_mask inputs) []) =
        max_length /\
        nth i (data arr) [] =
        mean_states hidden_size (nth (i mod batch_size) t []).
Proof.
  intros Hpad Hshape Hok.
  assert (Hlen : forall b t, encode b = Ok t -> length t = length b).
  { intros b t Hb. unfold Extractor.encode in Hb.
    destruct (tokenizer b max_length) as [inputs|e] eqn:Htok; [|discriminate].
    destruct (Hpad _ _ _ Htok) as (Hn & _).
    pose proof (Forall2_length (Hshape _ _ Hb)) as Hl.
    unfold to_device in Hl.
    etransitivity; [symmetry; exact Hl | exact Hn]. }
  destruct (run_rows tokenizer model hidden_size batch_size
              ExtractorSpec.batch_size_pos texts w)
    as (arr & w' & ts & Hrun & Hts & _ & _ & _ & Hrow).
  { intros b Hb. specialize (Hok b Hb).
    destruct (encode b) as [t|e] eqn:He; [|discriminate].
    exists t. split; [reflexivity | apply Hlen; exact He]. }
  exists arr, w'. split; [exact Hrun|].
  intros i Hi.
  destruct (Hrow i Hi) as [Hj Hmean].
  destruct (batch_of_text batch_size ExtractorSpec.batch_size_pos texts i Hi)
    as (Hk & _ & _ & _).
  destruct (nth_error_nth_lt _ _ _ [] Hk) as [_ Hklen].
  pose proof (Forall2_nth _ _ _ [] [] Hts _ Hklen) as He. cbn beta in He.
  set (b := nth (i / batch_size) (batches batch_size texts) []) in *.
  set (t := nth (i / batch_size) ts []) in *.
  unfold Extractor.encode in He.
  destruct (tokenizer b max_length) as [inputs|e] eqn:Htok; [|discriminate].
  exists inputs, t.
  destruct (Hpad _ _ _ Htok) as (Hn & Hm & Hids & Hbits).
  pose proof (Hshape _ _ He) as Hsh. unfold to_device in Hsh.
  pose proof (Forall2_length Hsh) as Hl.
  assert (Hji : i mod batch_size < length (input_ids inputs))
    by (rewrite Hl; exact Hj).
  repeat split; try assumption.
  - pose proof (Forall2_nth _ _ _ [] [] Hsh (i mod batch_size) Hji) as Hpos.
    cbn beta in Hpos. etransitivity; [exact Hpos|].
    apply (proj1 (Forall_nth _ _) Hids). exact Hji.
  - apply (proj1 (Forall_nth _ _) Hbits). rewrite Hm, <- Hn. exact Hji.
Qed.

(** C10.  When the tokenizer pads every text to [max_length = 128] and the
    encoder returns one hidden state per position, every row of the result
    is, component by component, the sum of the hidden states over all 128
    positions divided by 128.  The attention mask plays no part: padding
    positions are in the sum and in the count. *)
Theorem pooling_averages_all_positions
    (texts : list string) (w : World)
    (Hpad : pads_to_length tokenizer)
    (Hshape : keeps_shape model)
    (Hok : forall b, In b (batches batch_size texts) ->
                     is_ok (encode b) = true) :
  exists arr w',
    run texts w = (Ok arr, w') /\
    forall i, i < length texts ->
      exists inputs t,
        tokenizer (nth (i / batch_size) (batches batch_size texts) [])
                  max_length = Ok inputs /\
        model (to_device inputs) = Ok t /\
        let hs := nth (i mod batch_size) t [] in
        length hs = 128 /\
        nth i (data arr) [] =
        map (fun d => (Qcsum (map (component d) hs) / Qc_of_nat 128)%Qc)
            (seq 0 hidden_size).
Proof.
  destruct (run_rows_padded texts w Hpad Hshape Hok)
    as (arr & w' & Hrun & Hrows).
  exists arr, w'. split; [exact Hrun|].
  intros i Hi.
  destruct (Hrows i Hi) as (inputs & t & Htok & Hmodel & Hlen & _ & Hmean).
  exists inputs, t. cbn zeta. repeat split; try assumption.
  rewrite Hmean. unfold mean_states. rewrite Hlen. reflexivity.
Qed.

(** C2, as the code has it.  Under the same interface, for a text whose
    attention mask announces [max_length] real tokens (no padding position)
    the row of the result is the mean of the hidden states over the real
    token positions. *)
Theorem pooling_is_masked_mean_without_padding
    (texts : list string) (w : World)
    (Hpad : pads_to_length tokenizer)
    (Hshape : keeps_shape model)
    (Hok : forall b, In b (batches batch_size texts) ->
                     is_ok (encode b) = true) :
  exists arr w',
    run texts w = (Ok arr, w') /\
    forall i, i < length texts ->
      exists inputs t,
        tokenizer (nth (i / batch_size) (batches batch_size texts) [])
                  max_length = Ok inputs /\
        model (to_device inputs) = Ok t /\
        let hs := nth (i mod batch_size) t [] in
        let mask := nth (i mod batch_size) (attention_mask inputs) [] in
        (true_length mask = max_length ->
         nth i (data arr) [] = masked_mean_states hidden_size hs mask).
Proof.
  destruct (run_rows_padded texts w Hpad Hshape Hok)
    as (arr & w' & Hrun & Hrows).
  exists arr, w'. split; [exact Hrun|].
  intros i Hi.
  destruct (Hrows i Hi) as (inputs & t & Htok & Hmodel & Hlen & Hmask & Hmean).
  exists inputs, t. cbn zeta. repeat split; try assumption.
  intros Hfull. unfold masked_mean_states.
  rewrite real_states_full; [exact Hmean | congruence | congruence].
Qed.

(** Rows of a run over the batches, for collaborators that work text by
    text. *)
Lemma pooled_rowwise (encode1 : string -> result states) (B : nat) :
  0 < B ->
  rowwise tokenizer model encode1 ->
  forall texts acc,
    pooled tokenizer model hidden_size (batches B texts) acc =
    match mapM encode1 texts with
    | Raise e => Raise e
    | Ok t => Ok (acc ++ mean_dim1 hidden_size t)
    end.
Proof.
  intros HB Hrow texts.
  apply (batches_ind B HB
           (fun texts bs => forall acc,
                pooled tokenizer model hidden_size bs acc =
                match mapM encode1 texts with
                | Raise e => Raise e
                | Ok t => Ok (acc ++ mean_dim1 hidden_size t)
                end)).
  - intros acc. simpl. rewrite app_nil_r. reflexivity.
  - intros l _ IH acc. cbn [Reading.pooled].
    replace (mapM encode1 l) with (mapM encode1 (firstn B l ++ skipn B l))
      by (rewrite firstn_skipn; reflexivity).
    rewrite mapM_app, Hrow.
    destruct (mapM encode1 (firstn B l)) as [t1|e]; [|reflexivity].
    rewrite IH.
    destruct (mapM encode1 (skipn B l)) as [t2|e]; [|reflexivity].
    unfold mean_dim1. rewrite map_app, <- List.app_assoc. reflexivity.
Qed.

(** C4.  For a tokenizer and an encoder that work text by text, and every
    positive batch size [B], the outcome of the batched run (the pooled rows
    of the batches, in batch order) is the outcome of handing the whole
    corpus to the collaborators as one batch; hence any two positive batch
    sizes give the same outcome. *)
Theorem batching_does_not_change_the_result
    (encode1 : string -> result states)
    (Hrow : rowwise tokenizer model encode1)
    (B : nat) (HB : 0 < B) (texts : list string) (w w' : World) :
  fst (run_with B texts w) =
  fst (single_call tokenizer model hidden_size texts w') /\
  forall B', 0 < B' -> fst (run_with B' texts w') = fst (run_with B texts w).
Proof.
  assert (Hone : forall B0 w0, 0 < B0 ->
             fst (run_with B0 texts w0) =
             fst (single_call tokenizer model hidden_size texts w')).
  { intros B0 w0 HB0.
    rewrite (run_with_batches tokenizer model hidden_size B0 texts w0 HB0).
    rewrite single_call_run. cbn [fst].
    rewrite (pooled_rowwise encode1 B0 HB0 Hrow), Hrow.
    destruct (mapM encode1 texts); reflexivity. }
  split.
  - apply Hone. exact HB.
  - intros B' HB'. rewrite (Hone B' w' HB'), (Hone B w HB). reflexivity.
Qed.

End WithCollaborators.

End PoolingSpec.

(** ** Choosing and saving the best student *)

Module StudentsSpec.

Import Students.

Lemma max_from_bounds {A} (key : A -> Qc) :
  forall (rest : list A) (best : A),
    (key best <= key (max_from key best rest))%Qc /\
    (forall y, In y rest -> (key y <= key (max_from key best rest))%Qc) /\
    In (max_from key best rest) (best :: rest).
Proof.
  induction rest as [|x rest IH]; intros best; simpl.
  - split; [apply Qcle_refl|]. split; [intros y []|]. left. reflexivity.
  - destruct (Qclt_le_dec (key best) (key x)) as [Hlt|Hle].
    + destruct (IH x) as (Hx & Hrest & Hin).
      split; [|split].
      * eapply Qcle_trans; [apply Qclt_le_weak; exact Hlt | exact Hx].
      * intros y [<-|Hy]; [exact Hx | apply Hrest; exact Hy].
      * right. exact Hin.
    + destruct (IH best) as (Hbest & Hrest & Hin).
      split; [exact Hbest|]. split.
      * intros y [<-|Hy].
        -- eapply Qcle_trans; [exact Hle | exact Hbest].
        -- apply Hrest. exact Hy.
      * destruct Hin as [Hin|Hin]; [left; exact Hin | right; right; exact Hin].
Qed.

(** [max] returns an element of the iterable whose key is not below the
    key of any other element. *)
Lemma max_spec {A} (key : A -> Qc) (l : list A) (x : A) :
  Py.max l key = Ok x ->
  In x l /\ forall y, In y l -> (key y <= key x)%Qc.
Proof.
  destruct l as [|a rest]; simpl; [discriminate|].
  intros H. injection H as <-.
  destruct (max_from_bounds key rest a) as (Ha & Hrest & Hin).
  split; [exact Hin|].
  intros y [<-|Hy]; [exact Ha | apply Hrest; exact Hy].
Qed.

Section WithClassifiers.

Variable classifier : Type.
Variable fit : classifier -> list vec -> list Z -> classifier.
Variable predict : classifier -> list vec -> list Z.

(** C9.  After the training loop over the three students, the name chosen
    as best is a key of [results] whose recorded test accuracy is at least
    the recorded accuracy of every student; the object written to
    ['distilled_model.joblib'] is the fitted classifier stored under that
    name in [models], and the recorded accuracies are those of the fitted
    classifiers on the test set. *)
Theorem best_student_is_saved
    (lr rf mlp : classifier)
    (X_train X_test : list vec) (y_train y_test : list Z)
    (fs : files classifier) :
  let trained_results :=
    train_students fit predict (models lr rf mlp)
                   X_train X_test y_train y_test in
  let trained := fst trained_results in
  let results := snd trained_results in
  let accuracy c := accuracy_score y_test (predict c X_test) in
  exists name best,
    best_model_name results = Ok name /\
    get trained name = Some best /\
    save_best trained results fs =
    Ok (("distilled_model.joblib"%string, best) :: fs) /\
    get results name = Some (accuracy best) /\
    forall name' c,
      get trained name' = Some c ->
      get results name' = Some (accuracy c) /\
      (accuracy c <= accuracy best)%Qc.
Proof.
  cbn zeta.
  set (accuracy := fun c => accuracy_score y_test (predict c X_test)).
  set (flr := fit lr X_train y_train).
  set (frf := fit rf X_train y_train).
  set (fmlp := fit mlp X_train y_train).
  set (n1 := "Logistic Regression"%string).
  set (n2 := "Random Forest"%string).
  set (n3 := "MLP (Neural Network)"%string).
  assert (Htrained :
            fst (train_students fit predict (models lr rf mlp)
                                X_train X_test y_train y_test) =
            [(n1, flr); (n2, frf); (n3, fmlp)]) by reflexivity.
  assert (Hresults :
            snd (train_students fit predict (models lr rf mlp)
                                X_train X_test y_train y_test) =
            [(n1, accuracy flr); (n2, accuracy frf); (n3, accuracy fmlp)])
    by reflexivity.
  rewrite Htrained, Hresults.
  set (trained := [(n1, flr); (n2, frf); (n3, fmlp)]).
  set (results := [(n1, accuracy flr); (n2, accuracy frf);
                   (n3, accuracy fmlp)]).
  assert (Hlookup : forall name c,
             get trained name = Some c ->
             In name (keys results) /\
             get results name = Some (accuracy c)).
  { intros name c. unfold trained, results. cbn [get keys map fst].
    destruct (String.eqb_spec name n1) as [->|_].
    - intros H. injection H as <-. split; [left; reflexivity | reflexivity].
    - destruct (String.eqb_spec name n2) as [->|_].
      + intros H. injection H as <-.
        split; [right; left; reflexivity | reflexivity].
      + destruct (String.eqb_spec name n3) as [->|_]; [|discriminate].
        intros H. injection H as <-.
        split; [right; right; left; reflexivity | reflexivity]. }
  assert (Hkeys : forall name,
             In name (keys results) -> exists c, get trained name = Some c).
  { intros name [<-|[<-|[<-|[]]]]; eexists; reflexivity. }
  destruct (best_model_name results) as [name|e] eqn:Hbest;
    [|discriminate Hbest].
  destruct (max_spec _ _ _ Hbest) as (Hin & Hmax).
  destruct (Hkeys name Hin) as [best Hget].
  destruct (Hlookup name best Hget) as [_ Hacc].
  exists name, best. repeat split.
  - exact Hget.
  - unfold save_best, getitem. rewrite Hbest, Hget. reflexivity.
  - exact Hacc.
  - apply (Hlookup name' c H).
  - destruct (Hlookup name' c H) as [Hin' Hacc'].
    specialize (Hmax name' Hin'). unfold results_get in Hmax.
    rewrite Hacc, Hacc' in Hmax. exact Hmax.
Qed.

End WithClassifiers.

End StudentsSpec.

(** ** The cells around the extractor *)

Module NotebookSpec.

Import ListFacts LoopFacts Reading RunFacts RowFacts Notebook.

Section WithData.

Variable imdb_train : list (string * Z).
Variable tokenizer : list string -> nat -> result BatchEncoding.
Variable teacher_model : BatchEncoding -> result tensor3.
Variable hidden_size : nat.
Variable split_indices : list Z -> list nat * list nat.

Local Abbreviation encode := (encode tokenizer teacher_model).
Local Abbreviation load := (selection imdb_train).
Local Abbreviation extracted_texts := (extracted_texts imdb_train).
Local Abbreviation balanced_texts := (balanced_texts imdb_train).
Local Abbreviation balanced_labels := (balanced_labels imdb_train).

Lemma load_dataset_ok (instruction : string) (a b : nat) :
  load a b <> [] ->
  load_dataset imdb_train instruction a b = Ok (load a b).
Proof.
  intros Hne. unfold load_dataset.
  destruct (load a b); [congruence | reflexivity].
Qed.


(** The cells up to the split, one step after the other. *)
Lemma run_to_split_steps (w : World) :
  run_to_split imdb_train tokenizer teacher_model hidden_size
               split_indices w =
  match load_dataset imdb_train
          (String.append "train[:" (String.append (str num_samples) "]"))
          0 num_samples with
  | Raise e => (Raise e, w)
  | Ok dataset =>
      match get_model_embeddings tokenizer teacher_model hidden_size
              (column_text dataset) w with
      | (Raise e, w') => (Raise e, w')
      | (Ok arr, w') =>
          match load_dataset imdb_train
                  (String.append "train[0:"
                     (String.append (str (num_samples / 2)) "]"))
                  0 (num_samples / 2) with
          | Raise e => (Raise e, w')
          | Ok pos =>
              match load_dataset imdb_train
                      (String.append "train[12500:"
                         (String.append
                            (str (12500 + num_samples / 2)) "]"))
                      12500 (12500 + num_samples / 2) with
              | Raise e => (Raise e, w')
              | Ok neg =>
                  let g :=
                    set_corpus (column_text pos ++ column_text neg)
                               (column_label pos ++ column_label neg)
                               (set_embeddings arr
                                  (set_corpus (column_text dataset)
                                              (column_label dataset)
                                              unbound)) in
                  match train_test_split split_indices arr
                          (column_label pos ++ column_label neg) with
                  | Raise e => (Raise e, w')
                  | Ok s => (Ok (set_split s g), w')
                  end
              end
          end
      end
  end.
Proof.
  unfold run_to_split, cell_prepare_dataset, cell_extract_embeddings,
    cell_split.
  unfold bind at 1. unfold bind at 1. unfold lift at 1.
  destruct (load_dataset imdb_train _ 0 num_samples) as [dataset|e];
    [|reflexivity].
  unfold ret at 1. unfold bind at 1. unfold bind at 1.
  cbn [texts set_corpus].
  destruct (get_model_embeddings tokenizer teacher_model hidden_size
              (column_text dataset) w) as [[arr|e] w']; [|reflexivity].
  unfold ret at 1. unfold bind at 1. unfold lift at 1.
  destruct (load_dataset imdb_train _ 0 (num_samples / 2)) as [pos|e];
    [|reflexivity].
  unfold bind at 1. unfold lift at 1.
  destruct (load_dataset imdb_train _ 12500 (12500 + num_samples / 2))
    as [neg|e]; [|reflexivity].
  unfold bind, lift, ret.
  cbn [embeddings labels set_corpus set_embeddings].
  destruct (train_test_split split_indices arr
              (column_label pos ++ column_label neg)); reflexivity.
Qed.

Lemma run_to_split_ok (w w' : World) (arr : ndarray) :
  load 0 num_samples <> [] ->
  load 0 (num_samples / 2) <> [] ->
  load 12500 (12500 + num_samples / 2) <> [] ->
  get_model_embeddings tokenizer teacher_model hidden_size
                       extracted_texts w = (Ok arr, w') ->
  length (data arr) = length balanced_labels ->
  exists g,
    run_to_split imdb_train tokenizer teacher_model hidden_size
                 split_indices w = (Ok g, w') /\
    embeddings g = arr /\
    texts g = balanced_texts /\
    labels g = balanced_labels /\
    X_train g = take [] (data arr) (fst (split_indices balanced_labels)) /\
    y_train g = take 0%Z balanced_labels (fst (split_indices balanced_labels)) /\
    X_test g = take [] (data arr) (snd (split_indices balanced_labels)) /\
    y_test g = take 0%Z balanced_labels (snd (split_indices balanced_labels)).
Proof.
  intros H1 H2 H3 Hrun Hlen.
  rewrite run_to_split_steps.
  rewrite (load_dataset_ok _ _ _ H1), (load_dataset_ok _ _ _ H2),
    (load_dataset_ok _ _ _ H3).
  fold extracted_texts. rewrite Hrun.
  fold balanced_labels. fold balanced_texts.
  unfold train_test_split.
  rewrite (proj2 (Nat.eqb_eq _ _) Hlen).
  destruct (split_indices balanced_labels) as [train test].
  eexists. split; [reflexivity|].
  cbn [embeddings texts labels X_train y_train X_test y_test
       set_split set_corpus set_embeddings fst snd].
  repeat split.
Qed.

Lemma length_load (a n : nat) :
  a + n <= length imdb_train -> length (load a (a + n)) = n.
Proof.
  intros H. unfold selection. rewrite length_slice. lia.
Qed.

Lemma nth_load (a n j : nat) (d : string * Z) :
  j < n -> nth j (load a (a + n)) d = nth (a + j) imdb_train d.
Proof. intros H. unfold selection. apply nth_slice. exact H. Qed.

Lemma load_nonempty (a n : nat) :
  0 < n -> a + n <= length imdb_train -> load a (a + n) <> [].
Proof.
  intros Hn H Hnil. pose proof (length_load a n H) as Hlen.
  rewrite Hnil in Hlen. simpl in Hlen. lia.
Qed.

(** C5, as the code has it.  With at least [12500 + num_samples / 2] rows
    in the dataset and collaborators that accept the batches of step 7, the
    cells run through to the split, and what is split is this: row [i] of
    [embeddings] is still the pooled hidden states of the text of dataset
    row [i], extracted before [texts] and [labels] were bound again, while
    for [i] in the second half the label and the text at place [i] are
    those of dataset row [12500 + (i - num_samples / 2)].  The training
    and test sets take embeddings and labels at the same places. *)
Theorem split_pairs_old_embeddings_with_new_labels
    (w : World) (d : string * Z)
    (Hrows : 12500 + num_samples / 2 <= length imdb_train)
    (Hok : forall b, In b (batches batch_size extracted_texts) ->
                     exists t, encode b = Ok t /\ length t = length b) :
  exists g w',
    run_to_split imdb_train tokenizer teacher_model hidden_size
                 split_indices w = (Ok g, w') /\
    X_train g = take [] (data (embeddings g)) (fst (split_indices (labels g))) /\
    y_train g = take 0%Z (labels g) (fst (split_indices (labels g))) /\
    X_test g = take [] (data (embeddings g)) (snd (split_indices (labels g))) /\
    y_test g = take 0%Z (labels g) (snd (split_indices (labels g))) /\
    forall i, num_samples / 2 <= i < num_samples ->
      (exists t,
          let b := nth (i / batch_size)
                       (batches batch_size extracted_texts) [] in
          encode b = Ok t /\
          nth (i mod batch_size) b ""%string = fst (nth i imdb_train d) /\
          nth i (data (embeddings g)) [] =
          mean_states hidden_size (nth (i mod batch_size) t [])) /\
      nth i (labels g) (snd d) =
      snd (nth (12500 + (i - num_samples / 2)) imdb_train d) /\
      nth i (texts g) (fst d) =
      fst (nth (12500 + (i - num_samples / 2)) imdb_train d).
Proof.
  assert (Hhalf : num_samples / 2 = 500) by reflexivity.
  assert (Hnum : num_samples = 1000) by reflexivity.
  assert (Hbig : num_samples <= 12500)
    by (apply Nat.leb_le; vm_compute; reflexivity).
  rewrite Hhalf in *.
  assert (Hlen_old : length extracted_texts = 1000).
  { unfold extracted_texts, column_text. rewrite length_map, Hnum.
    apply (length_load 0 1000). simpl. lia. }
  assert (Hlen_pos : length (load 0 500) = 500)
    by (apply (length_load 0 500); simpl; lia).
  assert (Hlen_neg : length (load 12500 (12500 + 500)) = 500)
    by (apply length_load; exact Hrows).
  assert (Hlen_new : length balanced_labels = 1000).
  { unfold balanced_labels, column_label.
    rewrite Hhalf, length_app, !length_map, Hlen_pos, Hlen_neg.
    reflexivity. }
  destruct (run_rows tokenizer teacher_model hidden_size batch_size
              ExtractorSpec.batch_size_pos extracted_texts w Hok)
    as (arr & w' & ts & Hrun & Hts & _ & _ & Hlen & Hrow).
  assert (Hne0 : load 0 num_samples <> [])
    by (apply (load_nonempty 0 1000); simpl; lia).
  assert (Hne1 : load 0 (num_samples / 2) <> [])
    by (apply (load_nonempty 0 500); simpl; lia).
  assert (Hne2 : load 12500 (12500 + num_samples / 2) <> [])
    by (apply (load_nonempty 12500 500); [lia | exact Hrows]).
  destruct (run_to_split_ok w w' arr Hne0 Hne1 Hne2 Hrun ltac:(congruence))
    as (g & Hg & Hemb & Htexts & Hlabels & Hxtr & Hytr & Hxte & Hyte).
  exists g, w'. rewrite Hemb, Hlabels, Htexts.
  repeat split; try assumption.
  - destruct (batch_of_text batch_size ExtractorSpec.batch_size_pos
                extracted_texts i ltac:(lia)) as (Hk & _ & _ & Htext).
    destruct (nth_error_nth_lt _ _ _ [] Hk) as [_ Hklen].
    exists (nth (i / batch_size) ts []). cbn zeta. repeat split.
    + apply (Forall2_nth _ _ _ [] [] Hts). exact Hklen.
    + rewrite Htext. unfold extracted_texts, column_text.
      pose proof (length_load 0 1000 ltac:(simpl; lia)) as Hl0.
      pose proof (nth_load 0 1000 i d ltac:(lia)) as Hn0.
      cbn [Nat.add] in Hl0, Hn0.
      rewrite Hnum.
      rewrite (@nth_map_lt (string * Z) string fst _ _ d ""%string)
        by (rewrite Hl0; lia).
      rewrite Hn0. reflexivity.
    + apply Hrow. lia.
  - unfold balanced_labels, column_label. rewrite Hhalf.
    rewrite app_nth2 by (rewrite length_map, Hlen_pos; lia).
    rewrite length_map, Hlen_pos.
    rewrite (@nth_map_lt (string * Z) Z snd _ _ d (snd d))
      by (rewrite Hlen_neg; lia).
    rewrite nth_load by lia. reflexivity.
  - unfold balanced_texts, column_text. rewrite Hhalf.
    rewrite app_nth2 by (rewrite length_map, Hlen_pos; lia).
    rewrite length_map, Hlen_pos.
    rewrite (@nth_map_lt (string * Z) string fst _ _ d (fst d))
      by (rewrite Hlen_neg; lia).
    rewrite nth_load by lia. reflexivity.
Qed.

End WithData.

End NotebookSpec.

(** ** The properties on concrete inputs *)

Module Instances.

Import ListFacts LoopFacts Reading RunFacts RowFacts Notebook Toy.

Lemma length_pad_ids (n : nat) (ids : list Z) : length (pad_ids n ids) = n.
Proof.
  unfold pad_ids. rewrite length_app, length_firstn, repeat_length. lia.
Qed.

Lemma length_pad_mask (n : nat) (ids : list Z) : length (pad_mask n ids) = n.
Proof.
  unfold pad_mask. rewrite length_app, !repeat_length. lia.
Qed.

Lemma char_tokenizer_pads : pads_to_length char_tokenizer.
Proof.
  intros batch n inputs H. unfold char_tokenizer in H. injection H as <-.
  cbn [input_ids attention_mask]. rewrite !length_map.
  repeat split; apply Forall_map, Forall_forall; intros s _.
  - apply length_pad_ids.
  - apply length_pad_mask.
Qed.

Lemma id_encoder_keeps_shape : keeps_shape id_encoder.
Proof.
  intros inputs t H. unfold id_encoder in H. injection H as <-.
  induction (input_ids inputs) as [|ids rows IH]; simpl; constructor.
  - apply length_map.
  - exact IH.
Qed.

Lemma id_encoder_fixed_width : fixed_width id_encoder 1.
Proof.
  intros inputs t H. unfold id_encoder in H. injection H as <-.
  apply Forall_map, Forall_forall. intros ids _.
  apply Forall_map, Forall_forall. intros id _. reflexivity.
Qed.

Lemma toy_encode (batch : list string) :
  encode char_tokenizer id_encoder batch =
  Ok (map (fun s => map (fun id => [Q2Qc (inject_Z id)])
                        (pad_ids max_length (char_ids s))) batch).
Proof.
  unfold encode, char_tokenizer, id_encoder, to_device.
  cbn [input_ids]. rewrite map_map. reflexivity.
Qed.

Lemma toy_rowwise : rowwise char_tokenizer id_encoder encode1.
Proof.
  intros batch. rewrite toy_encode.
  induction batch as [|s batch IH]; simpl; [reflexivity|].
  rewrite <- IH. reflexivity.
Qed.

Lemma toy_accepts (batch : list string) :
  is_ok (encode char_tokenizer id_encoder batch) = true.
Proof. rewrite toy_encode. reflexivity. Qed.

(** C1 on the two texts of the specification's scenario. *)
Lemma get_model_embeddings_rows_in_order_witness :
  (forall b, In b (batches batch_size two_texts) ->
             exists t, encode char_tokenizer id_encoder b = Ok t /\
                       length t = length b) /\
  exists arr w',
    get_model_embeddings char_tokenizer id_encoder 1 two_texts world0 =
    (Ok arr, w') /\
    length (data arr) = 2.
Proof.
  assert (Hok : forall b, In b (batches batch_size two_texts) ->
                  exists t, encode char_tokenizer id_encoder b = Ok t /\
                            length t = length b).
  { intros b [<-|[]]. eexists. split; reflexivity. }
  split; [exact Hok|].
  destruct (ExtractorSpec.get_model_embeddings_rows_in_order
              char_tokenizer id_encoder 1 two_texts world0 Hok)
    as (arr & w' & Hrun & Hlen & _).
  exists arr, w'. split; [exact Hrun | exact Hlen].
Defined.

(** C3: on the empty input the shape is [(0,)], not [(0, D)]. *)
Lemma empty_result_has_no_hidden_axis :
  exists arr,
    fst (get_model_embeddings char_tokenizer id_encoder 1 [] world0) = Ok arr /\
    shape arr = [0] /\
    shape arr <> [0; 1].
Proof.
  eexists. split; [reflexivity|]. split; [reflexivity | discriminate].
Qed.

(** C6 on nine texts with the batch size of the notebook. *)
Lemma batches_consecutive_witness :
  0 < batch_size /\
  batches batch_size nine_texts =
  [firstn batch_size nine_texts; skipn batch_size nine_texts] /\
  map (@length string) (batches batch_size nine_texts) = [8; 1].
Proof.
  assert (HB : 0 < batch_size) by (unfold batch_size; lia).
  split; [exact HB|].
  destruct (ExtractorSpec.batches_consecutive
              char_tokenizer id_encoder 1 batch_size nine_texts HB)
    as (_ & _ & _ & Hnine).
  destruct (Hnine eq_refl) as (Hb & _).
  split; [exact Hb|]. rewrite Hb. reflexivity.
Defined.

(** C8 on two texts the second of which the tokenizer refuses: the
    extractor raises the tokenizer's exception. *)
Lemma get_model_embeddings_raises_witness :
  fixed_width id_encoder 1 /\
  fst (get_model_embeddings strict_tokenizer id_encoder 1
                            ["good movie"; ""]%string world0) =
  Raise (Exn "ValueError" "empty text").
Proof.
  split; [exact id_encoder_fixed_width|].
  destruct (ExtractorSpec.get_model_embeddings_raises
              strict_tokenizer id_encoder 1 ["good movie"; ""]%string
              world0 id_encoder_fixed_width) as (Hraise & _).
  apply (proj2 (Hraise (Exn "ValueError" "empty text"))).
  exists 0, ["good movie"; ""]%string.
  split; [reflexivity|]. split; [left; reflexivity|].
  intros k' b' Hlt. lia.
Defined.

(** C10 on the two texts of the specification's scenario. *)
Lemma pooling_averages_all_positions_witness :
  pads_to_length char_tokenizer /\
  keeps_shape id_encoder /\
  (forall b, In b (batches batch_size two_texts) ->
             is_ok (encode char_tokenizer id_encoder b) = true) /\
  exists arr w',
    get_model_embeddings char_tokenizer id_encoder 1 two_texts world0 =
    (Ok arr, w') /\
    map (map this) (data arr) = [[1001 # 128]; [871 # 128]]%Q.
Proof.
  split; [exact char_tokenizer_pads|].
  split; [exact id_encoder_keeps_shape|].
  split; [intros b _; apply toy_accepts|].
  destruct (PoolingSpec.pooling_averages_all_positions
              char_tokenizer id_encoder 1 two_texts world0
              char_tokenizer_pads id_encoder_keeps_shape
              (fun b _ => toy_accepts b))
    as (arr & w' & Hrun & _).
  exists arr, w'. split; [exact Hrun|].
  apply (f_equal fst) in Hrun. cbn [fst] in Hrun.
  vm_compute in Hrun. injection Hrun as <-. reflexivity.
Defined.

(** C2: a text of ten tokens.  The row of the result is the sum over all
    128 positions divided by 128; the mean over its ten real positions is
    another vector. *)
Lemma short_text_pools_padding :
  exists arr inputs t,
    fst (get_model_embeddings char_tokenizer id_encoder 1
                              ["good movie"%string] world0) = Ok arr /\
    char_tokenizer ["good movie"%string] max_length = Ok inputs /\
    id_encoder (to_device inputs) = Ok t /\
    true_length (nth 0 (attention_mask inputs) []) = 10 /\
    10 <= max_length /\
    map this (nth 0 (data arr) []) = [1001 # 128]%Q /\
    map this (masked_mean_states 1 (nth 0 t [])
                                 (nth 0 (attention_mask inputs) [])) =
    [1001 # 10]%Q /\
    nth 0 (data arr) [] <>
    masked_mean_states 1 (nth 0 t []) (nth 0 (attention_mask inputs) []).
Proof.
  eexists. eexists. eexists.
  split; [vm_compute; reflexivity|].
  split; [reflexivity|].
  split; [reflexivity|].
  split; [vm_compute; reflexivity|].
  split; [unfold max_length; lia|].
  split; [vm_compute; reflexivity|].
  split; [vm_compute; reflexivity|].
  intros H. apply (f_equal (map this)) in H. vm_compute in H.
  discriminate H.
Qed.

(** C2, as the code has it, on a text that fills all 128 positions. *)
Lemma pooling_is_masked_mean_without_padding_witness :
  pads_to_length char_tokenizer /\
  keeps_shape id_encoder /\
  (forall b, In b (batches batch_size [full_text]) ->
             is_ok (encode char_tokenizer id_encoder b) = true) /\
  exists arr w' inputs t,
    get_model_embeddings char_tokenizer id_encoder 1 [full_text] world0 =
    (Ok arr, w') /\
    char_tokenizer [full_text] max_length = Ok inputs /\
    id_encoder (to_device inputs) = Ok t /\
    true_length (nth 0 (attention_mask inputs) []) = max_length /\
    nth 0 (data arr) [] =
    masked_mean_states 1 (nth 0 t []) (nth 0 (attention_mask inputs) []).
Proof.
  split; [exact char_tokenizer_pads|].
  split; [exact id_encoder_keeps_shape|].
  split; [intros b _; apply toy_accepts|].
  destruct (PoolingSpec.pooling_is_masked_mean_without_padding
              char_tokenizer id_encoder 1 [full_text] world0
              char_tokenizer_pads id_encoder_keeps_shape
              (fun b _ => toy_accepts b))
    as (arr & w' & Hrun & Hrows).
  destruct (Hrows 0 ltac:(simpl; lia)) as (inputs & t & Htok & Hmodel & Hrow).
  change (nth (0 / batch_size) (batches batch_size [full_text]) [])
    with [full_text] in Htok.
  change (0 mod batch_size) with 0 in Hrow.
  exists arr, w', inputs, t.
  split; [exact Hrun|]. split; [exact Htok|]. split; [exact Hmodel|].
  assert (Hfull : true_length (nth 0 (attention_mask inputs) []) = max_length).
  { unfold char_tokenizer in Htok. injection Htok as <-.
    vm_compute. reflexivity. }
  split; [exact Hfull|]. apply Hrow. exact Hfull.
Defined.

(** C4 on three texts cut into batches of two. *)
Lemma batching_does_not_change_the_result_witness :
  rowwise char_tokenizer id_encoder encode1 /\
  0 < 2 /\
  fst (get_model_embeddings_with char_tokenizer id_encoder 1 2
                                 ["a"; "bb"; "c"]%string world0) =
  fst (single_call char_tokenizer id_encoder 1
                   ["a"; "bb"; "c"]%string world0).
Proof.
  assert (HB : 0 < 2) by lia.
  split; [exact toy_rowwise|]. split; [exact HB|].
  exact (proj1 (PoolingSpec.batching_does_not_change_the_result
                  char_tokenizer id_encoder 1 encode1 toy_rowwise 2 HB
                  ["a"; "bb"; "c"]%string world0 world0)).
Defined.

(** C5 on a dataset laid out like the train split: at the split, place 500
    holds the embedding of the negative review of dataset row 500 next to
    the label and the text of the positive review of dataset row 12500. *)
Lemma split_pairs_old_embeddings_with_new_labels_witness :
  12500 + num_samples / 2 <= length imdb_like /\
  (forall b, In b (batches batch_size (extracted_texts imdb_like)) ->
             exists t, encode char_tokenizer id_encoder b = Ok t /\
                       length t = length b) /\
  exists g w',
    run_to_split imdb_like char_tokenizer id_encoder 1 first_rows world0 =
    (Ok g, w') /\
    nth 500 imdb_like (""%string, 0%Z) = ("bad"%string, 0%Z) /\
    (exists t,
        encode char_tokenizer id_encoder
               (nth (500 / batch_size)
                    (batches batch_size (extracted_texts imdb_like)) []) =
        Ok t /\
        nth (500 mod batch_size)
            (nth (500 / batch_size)
                 (batches batch_size (extracted_texts imdb_like)) [])
            ""%string = "bad"%string /\
        nth 500 (data (embeddings g)) [] =
        mean_states 1 (nth (500 mod batch_size) t [])) /\
    nth 500 (labels g) 0%Z = 1%Z /\
    nth 500 (texts g) ""%string = "good"%string.
Proof.
  assert (Hrows : 12500 + num_samples / 2 <= length imdb_like)
    by (apply Nat.leb_le; vm_compute; reflexivity).
  assert (Hok : forall b,
             In b (batches batch_size (extracted_texts imdb_like)) ->
             exists t, encode char_tokenizer id_encoder b = Ok t /\
                       length t = length b).
  { intros b _. rewrite toy_encode. eexists. split; [reflexivity|].
    apply length_map. }
  split; [exact Hrows|]. split; [exact Hok|].
  destruct (NotebookSpec.split_pairs_old_embeddings_with_new_labels
              imdb_like char_tokenizer id_encoder 1 first_rows world0
              (""%string, 0%Z) Hrows Hok)
    as (g & w' & Hrun & _ & _ & _ & _ & Hstale).
  destruct (Hstale 500 ltac:(unfold num_samples; simpl; lia))
    as ((t & Ht & Htext & Hrow) & Hlabel & Htexts).
  exists g, w'. split; [exact Hrun|].
  split; [vm_compute; reflexivity|].
  split.
  - exists t. split; [exact Ht|]. split; [|exact Hrow].
    rewrite Htext. vm_compute. reflexivity.
  - split.
    + cbn [snd] in Hlabel. rewrite Hlabel. vm_compute. reflexivity.
    + cbn [fst] in Htexts. rewrite Htexts. vm_compute. reflexivity.
Defined.

End Instances.

(** ** More on the extractor: shape, calls, small and joined corpora *)

Module ExtractorMore.

Import ListFacts LoopFacts Reading RunFacts RowFacts Calls.

Lemma skipn_length_app {A} (l t : list A) : skipn (length l) (l ++ t) = t.
Proof. induction l as [|x l IH]; simpl; [reflexivity | exact IH]. Qed.

Lemma data_np_array (rows : list vec) : data (np_array rows) = rows.
Proof. destruct rows; reflexivity. Qed.

Lemma length_mean_states (D : nat) (hs : states) :
  length (mean_states D hs) = D.
Proof. unfold mean_states. rewrite length_map, length_seq. reflexivity. Qed.

Section WithCollaborators.

Variable tokenizer : list string -> nat -> result BatchEncoding.
Variable model : BatchEncoding -> result tensor3.
Variable hidden_size : nat.

Local Abbreviation encode := (encode tokenizer model).
Local Abbreviation trace := (trace tokenizer model).
Local Abbreviation pooled := (pooled tokenizer model hidden_size).
Local Abbreviation run_with :=
  (get_model_embeddings_with tokenizer model hidden_size).
Local Abbreviation run :=
  (get_model_embeddings tokenizer model hidden_size).

Lemma new_calls_run (texts : list string) (w : World) :
  new_calls (run texts) w = trace (batches batch_size texts).
Proof.
  unfold new_calls, get_model_embeddings.
  rewrite (run_with_batches tokenizer model hidden_size batch_size texts w
             ExtractorSpec.batch_size_pos).
  cbn [snd calls]. apply skipn_length_app.
Qed.

Lemma trace_members (bs : list (list string)) (c : call) :
  In c (trace bs) ->
  match c with
  | TokenizerCall b n => In b bs /\ n = max_length
  | ModelCall inputs =>
      exists b, In b bs /\ tokenizer b max_length = Ok inputs
  end.
Proof.
  induction bs as [|b bs IH]; simpl; [intros []|].
  intros [<-|Hin]; [split; [left; reflexivity | reflexivity]|].
  destruct (tokenizer b max_length) as [inputs|e] eqn:Htok; [|destruct Hin].
  destruct Hin as [<-|Hin].
  - exists b. split; [left; reflexivity | exact Htok].
  - destruct (model (to_device inputs)); [|destruct Hin].
    specialize (IH Hin). destruct c as [b' n|inputs'].
    + destruct IH as [Hb Hn]. split; [right; exact Hb | exact Hn].
    + destruct IH as (b' & Hb & Ht). exists b'. split; [right; exact Hb|].
      exact Ht.
Qed.

Lemma trace_counts (bs : list (list string)) :
  length (filter is_model_call (trace bs)) <=
  length (filter is_tokenizer_call (trace bs)) <= length bs /\
  ((forall b, In b bs -> is_ok (encode b) = true) ->
   length (filter is_tokenizer_call (trace bs)) = length bs /\
   length (filter is_model_call (trace bs)) = length bs /\
   length (trace bs) = 2 * length bs).
Proof.
  induction bs as [|b bs IH]; simpl; [repeat split; lia|].
  destruct (tokenizer b max_length) as [inputs|e] eqn:Htok; simpl.
  - destruct (model (to_device inputs)) as [t|e] eqn:Hm; simpl.
    + destruct IH as [Hle Heq]. split; [lia|].
      intros Hok.
      destruct Heq as (H1 & H2 & H3);
        [intros b' Hb'; apply (Hok b'); right; exact Hb' | lia].
    + split; [lia|]. intros Hok.
      specialize (Hok b (or_introl eq_refl)).
      unfold Extractor.encode in Hok. rewrite Htok, Hm in Hok.
      discriminate Hok.
  - split; [lia|]. intros Hok.
    specialize (Hok b (or_introl eq_refl)).
    unfold Extractor.encode in Hok. rewrite Htok in Hok.
    discriminate Hok.
Qed.

Lemma length_batches (B : nat) (texts : list string) :
  0 < B -> length (batches B texts) = (length texts + B - 1) / B.
Proof.
  intros HB.
  set (n := length (batches B texts)).
  assert (Hup : length texts <= n * B).
  { pose proof (nth_error_batches B HB texts n) as H.
    destruct (Nat.ltb_spec (n * B) (length texts)) as [Hlt|Hge];
      [|exact Hge].
    assert (Hnone : nth_error (batches B texts) n = None)
      by (apply nth_error_None; unfold n; lia).
    congruence. }
  assert (Hlow : n = 0 \/ (n - 1) * B < length texts).
  { destruct n as [|m] eqn:Hn; [left; reflexivity | right].
    pose proof (nth_error_batches B HB texts m) as H.
    replace (S m - 1) with m by lia.
    destruct (Nat.ltb_spec (m * B) (length texts)) as [Hlt|Hge];
      [exact Hlt|].
    assert (Hsome : nth_error (batches B texts) m <> None)
      by (apply nth_error_Some; fold n; lia).
    congruence. }
  apply (Nat.div_unique _ _ _ (length texts + B - 1 - B * n)); nia.
Qed.

(** X1.  For an encoder of one hidden size [D] (every hidden state it
    returns has [D = hidden_size] components): when the collaborators
    accept every batch and the encoder returns one block of hidden states
    per text, the result for a non-empty corpus is a two-dimensional array
    of shape [(N, D)]: one row per text, and every row has [D]
    components. *)
Theorem result_shape
    (texts : list string) (w : World)
    (Hwidth : fixed_width model hidden_size)
    (Hpos : 0 < length texts)
    (Hok : forall b, In b (batches batch_size texts) ->
                     exists t, encode b = Ok t /\ length t = length b) :
  exists arr w',
    run texts w = (Ok arr, w') /\
    shape arr = [length texts; hidden_size] /\
    Forall (fun row => length row = hidden_size) (data arr).
Proof.
  destruct (run_rows tokenizer model hidden_size batch_size
              ExtractorSpec.batch_size_pos texts w Hok)
    as (arr & w' & ts & Hrun & _ & Hdata & Hshape & Hlen & _).
  assert (Hrows : Forall (fun row => length row = hidden_size) (data arr)).
  { rewrite Hdata. apply Forall_forall. intros row Hin.
    apply in_concat in Hin. destruct Hin as (block & Hblock & Hrow).
    apply in_map_iff in Hblock. destruct Hblock as (t & <- & _).
    unfold mean_dim1 in Hrow. apply in_map_iff in Hrow.
    destruct Hrow as (hs & <- & _). apply length_mean_states. }
  exists arr, w'. split; [exact Hrun|]. split; [|exact Hrows].
  rewrite Hshape.
  destruct (data arr) as [|r rest] eqn:Hd; [simpl in Hlen; lia|].
  cbn [np_array shape]. rewrite Hlen.
  rewrite (Forall_inv Hrows). reflexivity.
Qed.

(** X2.  Whatever the collaborators do, every tokenizer call of a run is
    made with [max_length = 128] on a slice [texts[8k : 8k+8]] that holds
    between 1 and 8 texts, and every encoder call is made on what the
    tokenizer returned for one of the batches: the tokenizer never sees an
    empty batch and the encoder never sees anything else. *)
Theorem calls_are_on_batches (texts : list string) (w : World) :
  Forall
    (fun c =>
       match c with
       | TokenizerCall b n =>
           n = 128 /\
           1 <= length b <= 8 /\
           exists k, b = slice texts (k * 8) (k * 8 + 8)
       | ModelCall inputs =>
           exists b, In b (batches batch_size texts) /\
                     tokenizer b max_length = Ok inputs
       end)
    (new_calls (run texts) w).
Proof.
  rewrite new_calls_run. apply Forall_forall. intros c Hin.
  apply trace_members in Hin. destruct c as [b n|inputs]; [|exact Hin].
  destruct Hin as [Hb ->]. split; [reflexivity|].
  apply In_nth_error in Hb. destruct Hb as [k Hk].
  rewrite (nth_error_batches batch_size ExtractorSpec.batch_size_pos)
    in Hk.
  change batch_size with 8 in Hk.
  destruct (Nat.ltb_spec (k * 8) (length texts)) as [Hlt|Hge];
    [|discriminate].
  injection Hk as <-. split.
  - rewrite length_slice. lia.
  - exists k. reflexivity.
Qed.

(** X3.  A run over [N] texts makes at most [ceil(N / 8)] tokenizer calls
    and never more encoder calls than tokenizer calls; a run that returns
    an array has made exactly [ceil(N / 8)] calls of each, and no other
    call. *)
Theorem call_counts (texts : list string) (w : World) :
  let cs := new_calls (run texts) w in
  let n := (length texts + 7) / 8 in
  length (filter is_model_call cs) <=
  length (filter is_tokenizer_call cs) <= n /\
  (is_ok (fst (run texts w)) = true ->
   length (filter is_tokenizer_call cs) = n /\
   length (filter is_model_call cs) = n /\
   length cs = 2 * n).
Proof.
  cbn zeta. rewrite new_calls_run.
  pose proof (length_batches batch_size texts ExtractorSpec.batch_size_pos)
    as Hn.
  change (length texts + batch_size - 1) with (length texts + 8 - 1) in Hn.
  change (_ / batch_size) with ((length texts + 8 - 1) / 8) in Hn.
  replace (length texts + 8 - 1) with (length texts + 7) in Hn by lia.
  rewrite <- Hn.
  destruct (trace_counts (batches batch_size texts)) as [Hle Heq].
  split; [exact Hle|].
  intros Hok. apply Heq. intros b Hb.
  unfold get_model_embeddings in Hok.
  rewrite (run_with_batches tokenizer model hidden_size batch_size texts w
             ExtractorSpec.batch_size_pos) in Hok.
  cbn [fst] in Hok.
  destruct (pooled (batches batch_size texts) []) as [rows|e] eqn:Hp;
    [|discriminate Hok].
  apply pooled_ok_inv in Hp. destruct Hp as (ts & Hts & _).
  apply In_nth_error in Hb. destruct Hb as [k Hk].
  destruct (nth_error_nth_lt _ _ _ [] Hk) as [Hnth Hlt].
  pose proof (Forall2_nth _ _ _ [] [] Hts k Hlt) as Hb.
  cbn beta in Hb. rewrite Hnth in Hb. rewrite Hb. reflexivity.
Qed.

Lemma batches_small (texts : list string) :
  0 < length texts -> length texts <= batch_size ->
  batches batch_size texts = [texts].
Proof.
  intros Hpos Hle.
  rewrite (batches_unfold batch_size ExtractorSpec.batch_size_pos texts)
    by (intros ->; simpl in Hpos; lia).
  rewrite (@firstn_all2 _ batch_size texts) by exact Hle.
  rewrite (@skipn_all2 _ batch_size texts) by exact Hle.
  reflexivity.
Qed.

(** X4.  On a corpus of at most 8 texts (and at least one), as in the step
    that tries the saved model on five new texts, a run is exactly one
    trip through the collaborators with the whole corpus: the same outcome
    and the same calls as handing them the corpus as one batch. *)
Theorem small_corpus_is_one_batch
    (texts : list string) (w : World)
    (Hpos : 0 < length texts) (Hle : length texts <= 8) :
  run texts w = single_call tokenizer model hidden_size texts w /\
  new_calls (run texts) w = trace [texts].
Proof.
  split.
  - unfold get_model_embeddings.
    rewrite (run_with_batches tokenizer model hidden_size batch_size texts w
               ExtractorSpec.batch_size_pos).
    rewrite single_call_run, (batches_small texts Hpos Hle).
    cbn [Reading.pooled]. destruct (encode texts); reflexivity.
  - rewrite new_calls_run, (batches_small texts Hpos Hle). reflexivity.
Qed.

Lemma batches_app (B : nat) (l2 : list string) :
  0 < B ->
  forall k l1,
    length l1 = k * B ->
    batches B (l1 ++ l2) = batches B l1 ++ batches B l2.
Proof.
  intros HB. induction k as [|k IH]; intros l1 Hlen.
  - destruct l1; [reflexivity | discriminate].
  - assert (Hne : l1 <> []) by (intros ->; simpl in Hlen; lia).
    rewrite (batches_unfold B HB (l1 ++ l2))
      by (destruct l1; [congruence | discriminate]).
    rewrite (batches_unfold B HB l1 Hne).
    rewrite firstn_app, skipn_app.
    replace (B - length l1) with 0 by (simpl in Hlen; lia).
    cbn [firstn skipn]. rewrite app_nil_r.
    cbn [app]. f_equal. apply IH.
    rewrite length_skipn. simpl in Hlen. lia.
Qed.

Lemma pooled_app (bs1 bs2 : list (list string)) :
  forall acc,
    pooled (bs1 ++ bs2) acc =
    match pooled bs1 acc with
    | Raise e => Raise e
    | Ok rows => pooled bs2 rows
    end.
Proof.
  induction bs1 as [|b bs1 IH]; intros acc; simpl; [reflexivity|].
  destruct (encode b); [apply IH | reflexivity].
Qed.

Lemma pooled_acc (bs : list (list string)) :
  forall acc,
    pooled bs acc =
    match pooled bs [] with
    | Raise e => Raise e
    | Ok rows => Ok (acc ++ rows)
    end.
Proof.
  induction bs as [|b bs IH]; intros acc; simpl.
  - rewrite app_nil_r. reflexivity.
  - destruct (encode b) as [t|e]; [|reflexivity].
    rewrite (IH (acc ++ mean_dim1 hidden_size t)).
    rewrite (IH (mean_dim1 hidden_size t)).
    destruct (pooled bs []); [|reflexivity].
    rewrite List.app_assoc. reflexivity.
Qed.

(** X5.  For an encoder of one hidden size, and with no other assumption on
    the collaborators: when the first part of a corpus holds a multiple of
    8 texts, extracting the joined corpus gives the rows of the first part
    followed by the rows of the second, and raises what the first failing
    part raises. *)
Theorem extraction_of_joined_corpora
    (k : nat) (texts1 texts2 : list string) (w w1 w2 : World)
    (Hwidth : fixed_width model hidden_size)
    (Hlen : length texts1 = k * 8) :
  fst (run (texts1 ++ texts2) w) =
  match fst (run texts1 w1) with
  | Raise e => Raise e
  | Ok arr1 =>
      match fst (run texts2 w2) with
      | Raise e => Raise e
      | Ok arr2 => Ok (np_array (data arr1 ++ data arr2))
      end
  end.
Proof.
  unfold get_model_embeddings.
  rewrite !(run_with_batches tokenizer model hidden_size batch_size)
    by exact ExtractorSpec.batch_size_pos.
  cbn [fst].
  rewrite (batches_app batch_size texts2 ExtractorSpec.batch_size_pos
             k texts1 Hlen).
  rewrite pooled_app.
  destruct (pooled (batches batch_size texts1) []) as [rows1|e];
    [|reflexivity].
  rewrite pooled_acc.
  destruct (pooled (batches batch_size texts2) []) as [rows2|e];
    [|reflexivity].
  rewrite !data_np_array. reflexivity.
Qed.

End WithCollaborators.

End ExtractorMore.

(** ** Step 5: the reviews shown as examples *)

Module PreviewSpec.

Import Preview.

Lemma length_string_append (s1 s2 : string) :
  String.length (String.append s1 s2) = String.length s1 + String.length s2.
Proof. induction s1 as [|c s1 IH]; simpl; [reflexivity | rewrite IH; reflexivity]. Qed.

Lemma length_substring_le (s : string) :
  forall m, String.length (substring 0 m s) <= m.
Proof.
  induction s as [|c s IH]; intros m; destruct m; simpl; try lia.
  specialize (IH m). lia.
Qed.

Lemma substring_whole (s : string) :
  forall m, String.length s <= m -> substring 0 m s = s.
Proof.
  induction s as [|c s IH]; intros m H; destruct m; simpl in *;
    try reflexivity; try lia.
  rewrite IH by lia. reflexivity.
Qed.

Section FirstIndex.

Variable v : Z.

Local Abbreviation hits k l :=
  (map fst (filter (fun ix : nat * Z => Z.eqb (snd ix) v)
                   (combine (seq k (length l)) l))).

Lemma hits_found (l : list Z) :
  forall k,
    In v l ->
    exists i,
      next (hits k l) 0 = k + i /\
      nth_error l i = Some v /\
      forall j, j < i -> nth_error l j <> Some v.
Proof.
  induction l as [|x l IH]; intros k Hin; [destruct Hin|].
  cbn [length seq combine filter snd].
  destruct (Z.eqb_spec x v) as [->|Hne].
  - exists 0. cbn. split; [lia|]. split; [reflexivity|]. intros j Hj. lia.
  - destruct Hin as [Hx|Hin]; [congruence|].
    destruct (IH (S k) Hin) as (i & Hnext & Hi & Hbefore).
    exists (S i). split; [rewrite Hnext; lia|]. split; [exact Hi|].
    intros j Hj. destruct j as [|j]; cbn.
    + congruence.
    + apply Hbefore. lia.
Qed.

Lemma hits_absent (l : list Z) :
  forall k, ~ In v l -> hits k l = [].
Proof.
  induction l as [|x l IH]; intros k Hnot; [reflexivity|].
  cbn [length seq combine filter snd].
  destruct (Z.eqb_spec x v) as [->|Hne].
  - exfalso. apply Hnot. left. reflexivity.
  - apply IH. intros Hin. apply Hnot. right. exact Hin.
Qed.

(** X6.  When some label is [v], the index found for class [v] is the place
    of the first label equal to [v]: that place holds [v] and no earlier
    place does. *)
Theorem first_index_is_first_match (labels : list Z)
    (Hin : In v labels) :
  let i := first_index v labels in
  nth_error labels i = Some v /\
  forall j, j < i -> nth_error labels j <> Some v.
Proof.
  cbn zeta. unfold first_index, enumerate.
  destruct (hits_found labels 0 Hin) as (i & Hnext & Hi & Hbefore).
  rewrite Hnext. cbn [Nat.add]. split; assumption.
Qed.

(** X7.  When no label is [v], the index found for class [v] is 0: on a
    non-empty dataset the review shown as the example of class [v] is the
    first review, whose label is not [v]. *)
Theorem first_index_when_absent (labels : list Z)
    (Hnot : ~ In v labels) :
  first_index v labels = 0 /\
  forall texts,
    length texts = length labels ->
    labels <> [] ->
    exists text,
      nth_error texts 0 = Some text /\
      preview texts (first_index v labels) =
      Ok (String.append (substring 0 300 text) "...") /\
      nth_error labels 0 <> Some v.
Proof.
  assert (H0 : first_index v labels = 0).
  { unfold first_index, enumerate. rewrite (hits_absent labels 0 Hnot).
    reflexivity. }
  split; [exact H0|].
  intros texts Hlen Hne. rewrite H0.
  destruct labels as [|x labels]; [congruence|].
  destruct texts as [|text texts]; [discriminate|].
  exists text. split; [reflexivity|]. split; [reflexivity|].
  cbn. intros H. injection H as ->. apply Hnot. left. reflexivity.
Qed.

(** X8.  With as many texts as labels, showing the example of class [v]
    raises (an [IndexError]) exactly when the dataset is empty.  The line
    shown has at most 303 characters, and a review of at most 300
    characters is shown whole, followed by the three dots. *)
Theorem preview_of_example (texts : list string) (labels : list Z)
    (Hlen : length texts = length labels) :
  (texts = [] ->
   preview texts (first_index v labels) =
   Raise (Exn "IndexError" "list index out of range")) /\
  (texts <> [] ->
   exists text,
     nth_error texts (first_index v labels) = Some text /\
     preview texts (first_index v labels) =
     Ok (String.append (substring 0 300 text) "...") /\
     String.length (String.append (substring 0 300 text) "...") <= 303 /\
     (String.length text <= 300 ->
      preview texts (first_index v labels) = Ok (String.append text "..."))).
Proof.
  split.
  - intros ->. unfold preview, getitem.
    destruct (first_index v labels); reflexivity.
  - intros Hne.
    assert (Hi : first_index v labels < length texts).
    { destruct (in_dec Z.eq_dec v labels) as [Hin|Hnot].
      - destruct (hits_found labels 0 Hin) as (i & Hnext & Hnth & _).
        unfold first_index, enumerate. rewrite Hnext. cbn [Nat.add].
        rewrite Hlen. apply nth_error_Some. congruence.
      - unfold first_index, enumerate.
        rewrite (hits_absent labels 0 Hnot). cbn.
        destruct texts; [congruence | simpl; lia]. }
    destruct (nth_error texts (first_index v labels)) as [text|] eqn:Hnth;
      [|apply nth_error_None in Hnth; lia].
    exists text. unfold preview, getitem. rewrite Hnth.
    split; [reflexivity|]. split; [reflexivity|]. split.
    + rewrite length_string_append.
      pose proof (length_substring_le text 300) as Hs.
      change (String.length "...") with 3. lia.
    + intros Hshort. rewrite (substring_whole text 300 Hshort).
      reflexivity.
Qed.

End FirstIndex.

End PreviewSpec.

(** ** More on the students: the training loop and ties *)

Module StudentsMore.

Import Students.

Lemma max_from_first {A} (key : A -> Qc) :
  forall (rest : list A) (best : A),
    exists before after,
      best :: rest = before ++ max_from key best rest :: after /\
      (forall y, In y before ->
                 (key y < key (max_from key best rest))%Qc) /\
      (forall y, In y after ->
                 (key y <= key (max_from key best rest))%Qc).
Proof.
  induction rest as [|x rest IH]; intros best; cbn [max_from].
  - exists [], []. split; [reflexivity|]. split; intros y [].
  - destruct (Qclt_le_dec (key best) (key x)) as [Hlt|Hle].
    + destruct (IH x) as (before & after & Heq & Hbefore & Hafter).
      exists (best :: before), after. split; [cbn; f_equal; exact Heq|].
      split; [|exact Hafter].
      intros y [<-|Hy]; [|apply Hbefore; exact Hy].
      eapply Qclt_le_trans; [exact Hlt|].
      destruct before as [|b before'].
      * cbn in Heq. injection Heq as Hx _. rewrite <- Hx. apply Qcle_refl.
      * cbn in Heq. injection Heq as Hx _. subst b.
        apply Qclt_le_weak. apply Hbefore. left. reflexivity.
    + destruct (IH best) as (before & after & Heq & Hbefore & Hafter).
      destruct before as [|b before'].
      * cbn in Heq. injection Heq as Hm Hrest.
        exists [], (x :: after). split; [cbn; congruence|].
        split; [intros y []|].
        intros y [<-|Hy]; [rewrite <- Hm; exact Hle | apply Hafter; exact Hy].
      * cbn in Heq. injection Heq as Hb Hrest. subst b.
        exists (best :: x :: before'), after.
        split; [cbn; do 2 f_equal; exact Hrest|].
        split; [|exact Hafter].
        intros y [<-|[<-|Hy]].
        -- apply Hbefore. left. reflexivity.
        -- eapply Qcle_lt_trans; [exact Hle|].
           apply Hbefore. left. reflexivity.
        -- apply Hbefore. right. exact Hy.
Qed.

Lemma keys_map_snd {V W} (f : V -> W) (d : dict V) :
  keys (map (fun p => (fst p, f (snd p))) d) = keys d.
Proof.
  unfold keys. rewrite map_map. apply map_ext. intros [k x]. reflexivity.
Qed.

Lemma set_fresh {V} (d : dict V) (k : string) (x : V) :
  ~ In k (keys d) -> set d k x = d ++ [(k, x)].
Proof.
  induction d as [|[k' x'] d IH]; intros Hnot; cbn; [reflexivity|].
  destruct (String.eqb_spec k k') as [->|Hne].
  - exfalso. apply Hnot. left. reflexivity.
  - rewrite IH; [reflexivity|]. intros Hin. apply Hnot. right. exact Hin.
Qed.

Lemma set_present {V} (pre post : dict V) (k : string) (x x' : V) :
  ~ In k (keys pre) ->
  set (pre ++ (k, x) :: post) k x' = pre ++ (k, x') :: post.
Proof.
  induction pre as [|[k' y] pre IH]; intros Hnot; cbn.
  - rewrite String.eqb_refl. reflexivity.
  - destruct (String.eqb_spec k k') as [->|Hne].
    + exfalso. apply Hnot. left. reflexivity.
    + rewrite IH; [reflexivity|]. intros Hin. apply Hnot. right. exact Hin.
Qed.

Lemma get_map_snd {V W} (f : V -> W) (d : dict V) (k : string) :
  get (map (fun p => (fst p, f (snd p))) d) k =
  match get d k with
  | Some x => Some (f x)
  | None => None
  end.
Proof.
  induction d as [|[k' x] d IH]; cbn; [reflexivity|].
  destruct (String.eqb k k'); [reflexivity | exact IH].
Qed.

Lemma get_In {V} (d : dict V) (k : string) (x : V) :
  get d k = Some x -> In (k, x) d.
Proof.
  induction d as [|[k' x'] d IH]; cbn; [discriminate|].
  destruct (String.eqb_spec k k') as [->|Hne].
  - intros H. injection H as ->. left. reflexivity.
  - intros H. right. apply IH. exact H.
Qed.




Section WithLibrary.

Import TrainingCell.

Variable classifier : Type.
Variable fit : classifier -> list vec -> list Z -> result classifier.
Variable predict : classifier -> list vec -> result (list Z).
Variable accuracy_score : list Z -> list Z -> result Qc.
Variable classification_report :
  list Z -> list Z -> list string -> result string.
Variables X_train X_test : list vec.
Variables y_train y_test : list Z.

Local Abbreviation round :=
  (round fit predict accuracy_score classification_report
         X_train X_test y_train y_test).
Local Abbreviation rounds :=
  (rounds fit predict accuracy_score classification_report
          X_train X_test y_train y_test).
Local Abbreviation calls_return :=
  (calls_return fit predict accuracy_score classification_report
                X_train X_test y_train y_test).

Local Abbreviation fitted := (fitted fit X_train y_train).
Local Abbreviation predicted := (predicted fit predict X_train X_test y_train).
Local Abbreviation scored :=
  (scored fit predict accuracy_score X_train X_test y_train y_test).

Local Abbreviation after done todo :=
  (mk_bindings (map (fun p => (fst p, fitted (snd p))) done ++ todo)
               (map (fun p => (fst p, scored (snd p))) done)
               (map (fun p => (fst p, predicted (snd p))) done)).

Lemma round_returns (name : string) (c : classifier)
    (done todo : dict classifier) :
  ~ In name (keys done) ->
  calls_return c ->
  round (name, c) (after done ((name, c) :: todo)) =
  (Ok tt, after (done ++ [(name, c)]) todo).
Proof.
  intros Hfresh (c' & y_pred & accuracy & report & Hfit & Hpred & Hacc & Hrep).
  assert (Hf : fitted c = c') by (unfold fitted; rewrite Hfit; reflexivity).
  assert (Hp : predicted c = y_pred)
    by (unfold predicted; rewrite Hf, Hpred; reflexivity).
  assert (Hs : scored c = accuracy)
    by (unfold scored; rewrite Hp, Hacc; reflexivity).
  unfold TrainingCell.round. rewrite Hfit. cbn [models results all_predictions].
  rewrite Hpred. cbn [models results all_predictions].
  rewrite Hacc. cbn [models results all_predictions].
  rewrite Hrep.
  rewrite set_present by (rewrite (keys_map_snd fitted); exact Hfresh).
  rewrite set_fresh by (rewrite (keys_map_snd scored); exact Hfresh).
  rewrite set_fresh by (rewrite (keys_map_snd predicted); exact Hfresh).
  rewrite !map_app. cbn [map fst snd]. rewrite Hf, Hp, Hs.
  rewrite <- List.app_assoc. reflexivity.
Qed.

Lemma rounds_return (tail : dict classifier) :
  forall (todo done : dict classifier),
    NoDup (keys (done ++ todo ++ tail)) ->
    (forall name c, In (name, c) todo -> calls_return c) ->
    rounds todo (after done (todo ++ tail)) =
    (Ok tt, after (done ++ todo) tail).
Proof.
  induction todo as [|[name c] todo IH]; intros done Hnodup Hcalls.
  - cbn. rewrite !app_nil_r. reflexivity.
  - cbn [TrainingCell.rounds app].
    assert (Hfresh : ~ In name (keys done)).
    { unfold keys in *. rewrite map_app in Hnodup. cbn in Hnodup.
      apply NoDup_remove_2 in Hnodup. intros Hin. apply Hnodup.
      apply in_or_app. left. exact Hin. }
    rewrite (round_returns name c done (todo ++ tail) Hfresh)
      by (apply (Hcalls name c); left; reflexivity).
    replace (done ++ (name, c) :: todo)
      with ((done ++ [(name, c)]) ++ todo)
      by (rewrite <- List.app_assoc; reflexivity).
    apply IH.
    + rewrite <- List.app_assoc. exact Hnodup.
    + intros name' c' Hin. apply (Hcalls name' c'). right. exact Hin.
Qed.

(** X9.  For a dict of students with distinct names: when every call of
    the loop body ([fit], [predict], [accuracy_score],
    [classification_report]) returns for every student, the training loop
    returns, and [models], [results] and [all_predictions] then hold
    exactly the names of the students; under each name are the fitted
    classifier, the accuracy that [accuracy_score] returned for its
    predictions on the test set, and those predictions. *)
Theorem training_cell_fits_and_scores_every_student
    (students : dict classifier)
    (Hnodup : NoDup (keys students))
    (Hcalls : forall name c, In (name, c) students -> calls_return c) :
  exists st,
    training_cell fit predict accuracy_score classification_report
                  X_train X_test y_train y_test students = (Ok tt, st) /\
    keys (models st) = keys students /\
    keys (results st) = keys students /\
    keys (all_predictions st) = keys students /\
    forall name c,
      get students name = Some c ->
      exists c' y_pred accuracy,
        fit c X_train y_train = Ok c' /\
        predict c' X_test = Ok y_pred /\
        accuracy_score y_test y_pred = Ok accuracy /\
        get (models st) name = Some c' /\
        get (results st) name = Some accuracy /\
        get (all_predictions st) name = Some y_pred.
Proof.
  exists (after students []).
  split.
  { pose proof (rounds_return [] students [] ltac:(rewrite app_nil_r;
                                                     exact Hnodup)
                              Hcalls) as H.
    rewrite app_nil_r in H. exact H. }
  cbn [models results all_predictions]. rewrite app_nil_r.
  split; [apply keys_map_snd|]. split; [apply keys_map_snd|].
  split; [apply keys_map_snd|].
  intros name c Hget.
  destruct (Hcalls name c (get_In students name c Hget))
    as (c' & y_pred & accuracy & report & Hfit & Hpred & Hacc & _).
  assert (Hf : fitted c = c') by (unfold fitted; rewrite Hfit; reflexivity).
  assert (Hp : predicted c = y_pred)
    by (unfold predicted; rewrite Hf, Hpred; reflexivity).
  assert (Hs : scored c = accuracy)
    by (unfold scored; rewrite Hp, Hacc; reflexivity).
  exists c', y_pred, accuracy.
  rewrite (get_map_snd fitted), (get_map_snd scored),
    (get_map_snd predicted), Hget, Hf, Hp, Hs.
  repeat split; assumption.
Qed.



End WithLibrary.

(** X10.  [max(results, key=results.get)] raises [ValueError] exactly on an
    empty [results]; otherwise the name it returns is the first key with
    the highest accuracy: every key before it has a strictly lower
    accuracy and no key after it has a higher one.  On a tie the student
    trained first is chosen. *)
Theorem best_model_name_is_first_maximum (results : dict Qc) :
  match best_model_name results with
  | Raise e =>
      results = [] /\
      e = Exn "ValueError" "max() arg is an empty sequence"
  | Ok name =>
      exists before after,
        keys results = before ++ name :: after /\
        (forall n, In n before ->
                   (results_get results n < results_get results name)%Qc) /\
        (forall n, In n after ->
                   (results_get results n <= results_get results name)%Qc)
  end.
Proof.
  unfold best_model_name, Py.max.
  destruct results as [|[k a] rest]; cbn [keys map fst].
  - split; reflexivity.
  - apply (max_from_first (results_get ((k, a) :: rest))
                          (map fst rest) k).
Qed.

End StudentsMore.

(** ** More on the cells up to the split *)

Module NotebookMore.

Import ListFacts LoopFacts Reading RunFacts RowFacts Notebook.

Section WithData.

Variable imdb_train : list (string * Z).
Variable tokenizer : list string -> nat -> result BatchEncoding.
Variable teacher_model : BatchEncoding -> result tensor3.
Variable hidden_size : nat.
Variable split_indices : list Z -> list nat * list nat.

Local Abbreviation encode := (encode tokenizer teacher_model).
Local Abbreviation load := (selection imdb_train).
Local Abbreviation extracted_texts := (extracted_texts imdb_train).
Local Abbreviation balanced_texts := (balanced_texts imdb_train).
Local Abbreviation balanced_labels := (balanced_labels imdb_train).
Local Abbreviation run_to_split :=
  (run_to_split imdb_train tokenizer teacher_model hidden_size split_indices).

Lemma length_load_from (a n : nat) :
  length (load a (a + n)) = Nat.min n (length imdb_train - a).
Proof. unfold selection. apply length_slice. Qed.

Lemma length_extracted_texts :
  length extracted_texts = Nat.min 1000 (length imdb_train).
Proof.
  unfold Notebook.extracted_texts, column_text. rewrite length_map.
  change num_samples with (0 + 1000). rewrite length_load_from. lia.
Qed.

Lemma length_balanced_labels :
  length balanced_labels =
  Nat.min 500 (length imdb_train) +
  Nat.min 500 (length imdb_train - 12500).
Proof.
  unfold Notebook.balanced_labels, column_label.
  change (num_samples / 2) with 500.
  rewrite length_app, !length_map, length_load_from.
  change 500 with (0 + 500) at 1. rewrite length_load_from. lia.
Qed.




(** X12.  When the cells get through the split (enough rows, collaborators
    that accept the batches of step 7), the first half is consistent: for
    [i < num_samples / 2] the text and the label at place [i] are those of
    dataset row [i], and row [i] of [embeddings] is the pooled hidden
    states of that same text. *)
Theorem first_half_is_aligned
    (w : World) (d : string * Z)
    (Hrows : 12500 + num_samples / 2 <= length imdb_train)
    (Hok : forall b, In b (batches batch_size extracted_texts) ->
                     exists t, encode b = Ok t /\ length t = length b) :
  exists g w',
    run_to_split w = (Ok g, w') /\
    forall i, i < num_samples / 2 ->
      nth i (texts g) (fst d) = fst (nth i imdb_train d) /\
      nth i (labels g) (snd d) = snd (nth i imdb_train d) /\
      exists t,
        let b := nth (i / batch_size)
                     (batches batch_size extracted_texts) [] in
        encode b = Ok t /\
        nth (i mod batch_size) b ""%string = nth i (texts g) (fst d) /\
        nth i (data (embeddings g)) [] =
        mean_states hidden_size (nth (i mod batch_size) t []).
Proof.
  assert (Hbig : 1000 <= 12500)
    by (apply Nat.leb_le; vm_compute; reflexivity).
  change (num_samples / 2) with 500 in *.
  pose proof length_extracted_texts as Hext.
  pose proof length_balanced_labels as Hbal.
  assert (Hlen_pos : length (load 0 500) = 500)
    by (apply (NotebookSpec.length_load imdb_train 0 500); simpl; lia).
  pose proof (NotebookSpec.length_load imdb_train 0 1000
                ltac:(simpl; lia)) as Hl0.
  cbn [Nat.add] in Hl0.
  destruct (run_rows tokenizer teacher_model hidden_size batch_size
              ExtractorSpec.batch_size_pos extracted_texts w Hok)
    as (arr & w' & ts & Hrun & Hts & _ & _ & Hlen & Hrow).
  assert (Hne0 : load 0 num_samples <> [])
    by (apply (NotebookSpec.load_nonempty imdb_train 0 1000); simpl; lia).
  assert (Hne1 : load 0 (num_samples / 2) <> [])
    by (apply (NotebookSpec.load_nonempty imdb_train 0 500); simpl; lia).
  assert (Hne2 : load 12500 (12500 + num_samples / 2) <> [])
    by (apply (NotebookSpec.load_nonempty imdb_train 12500 500);
        [lia | exact Hrows]).
  destruct (NotebookSpec.run_to_split_ok imdb_train tokenizer teacher_model
              hidden_size split_indices w w' arr Hne0 Hne1 Hne2 Hrun
              ltac:(lia))
    as (g & Hg & Hemb & Htexts & Hlabels & _).
  exists g, w'. split; [exact Hg|].
  intros i Hi. rewrite Hemb, Hlabels, Htexts.
  assert (Htext_i : nth i balanced_texts (fst d) = fst (nth i imdb_train d)).
  { unfold Notebook.balanced_texts, column_text.
    change (num_samples / 2) with 500.
    rewrite app_nth1 by (rewrite length_map, Hlen_pos; lia).
    rewrite (@nth_map_lt (string * Z) string fst _ _ d (fst d))
      by (rewrite Hlen_pos; lia).
    pose proof (NotebookSpec.nth_load imdb_train 0 500 i d Hi) as Hn.
    cbn [Nat.add] in Hn. rewrite Hn. reflexivity. }
  split; [exact Htext_i|]. split.
  - unfold Notebook.balanced_labels, column_label.
    change (num_samples / 2) with 500.
    rewrite app_nth1 by (rewrite length_map, Hlen_pos; lia).
    rewrite (@nth_map_lt (string * Z) Z snd _ _ d (snd d))
      by (rewrite Hlen_pos; lia).
    pose proof (NotebookSpec.nth_load imdb_train 0 500 i d Hi) as Hn.
    cbn [Nat.add] in Hn. rewrite Hn. reflexivity.
  - assert (Hi' : i < length extracted_texts) by lia.
    destruct (batch_of_text batch_size ExtractorSpec.batch_size_pos
                extracted_texts i Hi') as (Hk & _ & _ & Htext).
    destruct (nth_error_nth_lt _ _ _ [] Hk) as [_ Hklen].
    exists (nth (i / batch_size) ts []). cbn zeta. repeat split.
    + apply (Forall2_nth _ _ _ [] [] Hts). exact Hklen.
    + rewrite Htext, Htext_i.
      unfold Notebook.extracted_texts, column_text.
      change num_samples with 1000.
      rewrite (@nth_map_lt (string * Z) string fst _ _ d ""%string)
        by (rewrite Hl0; lia).
      pose proof (NotebookSpec.nth_load imdb_train 0 1000 i d
                    ltac:(lia)) as Hn.
      cbn [Nat.add] in Hn. rewrite Hn. reflexivity.
    + apply Hrow. exact Hi'.
Qed.

End WithData.

End NotebookMore.

(** ** The further properties on concrete inputs *)

Module MoreInstances.

Import ListFacts LoopFacts Reading RunFacts RowFacts Notebook Toy Samples.
Import Preview Students.

Lemma toy_batches_accepted (texts : list string) (b : list string) :
  In b (batches batch_size texts) ->
  exists t, encode char_tokenizer id_encoder b = Ok t /\ length t = length b.
Proof.
  intros _. rewrite Instances.toy_encode. eexists.
  split; [reflexivity | apply length_map].
Qed.

(** X1 on the two texts of the specification's scenario. *)
Lemma result_shape_witness :
  fixed_width id_encoder 1 /\
  0 < length two_texts /\
  (forall b, In b (batches batch_size two_texts) ->
             exists t, encode char_tokenizer id_encoder b = Ok t /\
                       length t = length b) /\
  exists arr w',
    get_model_embeddings char_tokenizer id_encoder 1 two_texts world0 =
    (Ok arr, w') /\
    shape arr = [2; 1].
Proof.
  assert (Hpos : 0 < length two_texts) by (simpl; lia).
  split; [exact Instances.id_encoder_fixed_width|].
  split; [exact Hpos|]. split; [apply toy_batches_accepted|].
  destruct (ExtractorMore.result_shape char_tokenizer id_encoder 1
              two_texts world0 Instances.id_encoder_fixed_width Hpos
              (toy_batches_accepted two_texts))
    as (arr & w' & Hrun & Hshape & _).
  exists arr, w'. split; [exact Hrun | exact Hshape].
Defined.

(** X4 on the two texts of the specification's scenario. *)
Lemma small_corpus_is_one_batch_witness :
  0 < length two_texts /\
  length two_texts <= 8 /\
  get_model_embeddings char_tokenizer id_encoder 1 two_texts world0 =
  single_call char_tokenizer id_encoder 1 two_texts world0.
Proof.
  assert (Hpos : 0 < length two_texts) by (simpl; lia).
  assert (Hle : length two_texts <= 8) by (simpl; lia).
  split; [exact Hpos|]. split; [exact Hle|].
  exact (proj1 (ExtractorMore.small_corpus_is_one_batch
                  char_tokenizer id_encoder 1 two_texts world0 Hpos Hle)).
Defined.

(** X5 on eight texts followed by two. *)
Lemma extraction_of_joined_corpora_witness :
  fixed_width id_encoder 1 /\
  length eight_texts = 1 * 8 /\
  exists arr1 arr2,
    fst (get_model_embeddings char_tokenizer id_encoder 1
                              eight_texts world0) = Ok arr1 /\
    fst (get_model_embeddings char_tokenizer id_encoder 1
                              two_texts world0) = Ok arr2 /\
    fst (get_model_embeddings char_tokenizer id_encoder 1
                              (eight_texts ++ two_texts) world0) =
    Ok (np_array (data arr1 ++ data arr2)).
Proof.
  assert (Hlen : length eight_texts = 1 * 8) by reflexivity.
  split; [exact Instances.id_encoder_fixed_width|].
  split; [exact Hlen|].
  pose proof (ExtractorMore.extraction_of_joined_corpora
                char_tokenizer id_encoder 1 1 eight_texts two_texts
                world0 world0 world0 Instances.id_encoder_fixed_width
                Hlen) as Hjoin.
  destruct (fst (get_model_embeddings char_tokenizer id_encoder 1
                                      eight_texts world0))
    as [arr1|e1] eqn:H1; [|vm_compute in H1; discriminate H1].
  destruct (fst (get_model_embeddings char_tokenizer id_encoder 1
                                      two_texts world0))
    as [arr2|e2] eqn:H2; [|vm_compute in H2; discriminate H2].
  exists arr1, arr2. split; [reflexivity|]. split; [reflexivity|].
  exact Hjoin.
Defined.

(** X6 on four labels whose first positive one is at place 2. *)
Lemma first_index_is_first_match_witness :
  In 1%Z mixed_labels /\
  pos_idx mixed_labels = 2 /\
  nth_error mixed_labels (pos_idx mixed_labels) = Some 1%Z.
Proof.
  assert (Hin : In 1%Z mixed_labels) by (right; right; left; reflexivity).
  split; [exact Hin|]. split; [reflexivity|].
  exact (proj1 (PreviewSpec.first_index_is_first_match 1%Z mixed_labels Hin)).
Defined.

(** X7 on two negative labels: the positive example shown is the first
    review. *)
Lemma first_index_when_absent_witness :
  ~ In 1%Z negative_labels /\
  pos_idx negative_labels = 0.
Proof.
  assert (Hnot : ~ In 1%Z negative_labels).
  { intros [H|[H|[]]]; discriminate H. }
  split; [exact Hnot|].
  exact (proj1 (PreviewSpec.first_index_when_absent 1%Z negative_labels Hnot)).
Defined.

(** X8 on two texts with two negative labels, and on the empty dataset. *)
Lemma preview_of_example_witness :
  length two_texts = length negative_labels /\
  preview two_texts (first_index 0 negative_labels) =
  Ok "good movie..."%string /\
  preview [] (first_index 0 []) =
  Raise (Exn "IndexError" "list index out of range").
Proof.
  assert (Hlen : length two_texts = length negative_labels) by reflexivity.
  split; [exact Hlen|]. split.
  - destruct (PreviewSpec.preview_of_example 0%Z two_texts negative_labels
                Hlen) as [_ Hshown].
    destruct (Hshown ltac:(discriminate)) as (text & Hnth & _ & _ & Hwhole).
    vm_compute in Hnth. injection Hnth as <-.
    apply Hwhole. vm_compute. lia.
  - apply (proj1 (PreviewSpec.preview_of_example 0%Z [] [] eq_refl)).
    reflexivity.
Defined.

(** X9 on the three students of the notebook, as constant classifiers, with
    two rows of two classes for training and for testing. *)
Lemma training_cell_fits_and_scores_every_student_witness :
  NoDup (keys (models (-2) (-1) (-1))%Z) /\
  (forall name c,
      In (name, c) (models (-2) (-1) (-1))%Z ->
      TrainingCell.calls_return checked_fit checked_predict checked_accuracy
                                checked_report two_rows two_rows
                                two_classes two_classes c) /\
  exists st,
    TrainingCell.training_cell checked_fit checked_predict checked_accuracy
                               checked_report two_rows two_rows
                               two_classes two_classes
                               (models (-2) (-1) (-1))%Z = (Ok tt, st) /\
    keys (TrainingCell.results st) = keys (models (-2) (-1) (-1))%Z.
Proof.
  assert (Hnodup : NoDup (keys (models (-2) (-1) (-1))%Z)).
  { repeat constructor; cbn; intuition discriminate. }
  assert (Hcalls : forall name c,
             In (name, c) (models (-2) (-1) (-1))%Z ->
             TrainingCell.calls_return
               checked_fit checked_predict checked_accuracy checked_report
               two_rows two_rows two_classes two_classes c).
  { intros name c [H|[H|[H|[]]]]; injection H as _ <-;
      unfold TrainingCell.calls_return; do 4 eexists;
      (split; [reflexivity|]); (split; [reflexivity|]);
      (split; [vm_compute; reflexivity|]); vm_compute; reflexivity. }
  split; [exact Hnodup|]. split; [exact Hcalls|].
  destruct (StudentsMore.training_cell_fits_and_scores_every_student
              Z checked_fit checked_predict checked_accuracy checked_report
              two_rows two_rows two_classes two_classes
              (models (-2) (-1) (-1))%Z Hnodup Hcalls)
    as (st & Hrun & _ & Hkeys & _).
  exists st. split; [exact Hrun | exact Hkeys].
Defined.



(** X12 on a dataset laid out like the train split: place 7. *)
Lemma first_half_is_aligned_witness :
  12500 + num_samples / 2 <= length imdb_like /\
  (forall b, In b (batches batch_size (extracted_texts imdb_like)) ->
             exists t, encode char_tokenizer id_encoder b = Ok t /\
                       length t = length b) /\
  exists g w',
    run_to_split imdb_like char_tokenizer id_encoder 1 first_rows world0 =
    (Ok g, w') /\
    nth 7 (texts g) ""%string = "bad"%string /\
    nth 7 (labels g) 0%Z = 0%Z.
Proof.
  assert (Hrows : 12500 + num_samples / 2 <= length imdb_like)
    by (apply Nat.leb_le; vm_compute; reflexivity).
  split; [exact Hrows|]. split; [apply toy_batches_accepted|].
  destruct (NotebookMore.first_half_is_aligned
              imdb_like char_tokenizer id_encoder 1 first_rows world0
              (""%string, 0%Z) Hrows
              (toy_batches_accepted (extracted_texts imdb_like)))
    as (g & w' & Hrun & Hhalf).
  destruct (Hhalf 7 ltac:(apply Nat.ltb_lt; vm_compute; reflexivity))
    as (Htext & Hlabel & _).
  exists g, w'. split; [exact Hrun|]. cbn [fst snd] in Htext, Hlabel.
  split.
  - rewrite Htext. vm_compute. reflexivity.
  - rewrite Hlabel. vm_compute. reflexivity.
Defined.

End MoreInstances.

(** ** A text's embedding does not depend on its neighbours *)

Module RowwiseMore.

Import ListFacts LoopFacts Reading RunFacts RowFacts Toy.

Lemma mapM_nth {A B} (f : A -> result B) (da : A) (db : B) :
  forall (l : list A) (ys : list B),
    mapM f l = Ok ys ->
    length ys = length l /\
    forall i, i < length l -> f (nth i l da) = Ok (nth i ys db).
Proof.
  induction l as [|x l IH]; intros ys H; cbn in H.
  - injection H as <-. split; [reflexivity|]. intros i Hi. cbn in Hi. lia.
  - destruct (f x) as [y|e] eqn:Hx; [|discriminate].
    destruct (mapM f l) as [ys'|e]; [|discriminate].
    injection H as <-. destruct (IH ys' eq_refl) as [Hlen Hnth].
    split; [cbn; rewrite Hlen; reflexivity|].
    intros i Hi. destruct i as [|i]; cbn; [exact Hx|].
    apply Hnth. cbn in Hi. lia.
Qed.

Section WithCollaborators.

Variable tokenizer : list string -> nat -> result BatchEncoding.
Variable model : BatchEncoding -> result tensor3.
Variable hidden_size : nat.
Variable encode1 : string -> result states.

Local Abbreviation run :=
  (get_model_embeddings tokenizer model hidden_size).

(** X13.  For a tokenizer and an encoder that work text by text: when the
    extraction of a corpus returns an array, extracting any one of its
    texts alone returns the one-row array holding that text's row.  The
    embedding of a text is the same whatever corpus and batch it is in
    (the new texts of the last step are embedded as the training texts
    were). *)
Theorem row_is_embedding_of_text_alone
    (texts : list string) (w w' : World) (arr : ndarray) (i : nat)
    (Hrow : rowwise tokenizer model encode1)
    (Hrun : fst (run texts w) = Ok arr)
    (Hi : i < length texts) :
  fst (run [nth i texts ""%string] w') =
  Ok (mk_ndarray [1; hidden_size] [nth i (data arr) []]).
Proof.
  unfold get_model_embeddings in *.
  rewrite (run_with_batches tokenizer model hidden_size batch_size)
    in Hrun |- * by exact ExtractorSpec.batch_size_pos.
  cbn [fst] in Hrun |- *.
  rewrite (PoolingSpec.pooled_rowwise tokenizer model hidden_size encode1
             batch_size ExtractorSpec.batch_size_pos Hrow) in Hrun |- *.
  destruct (mapM encode1 texts) as [t|e] eqn:Hall; [|discriminate Hrun].
  injection Hrun as <-.
  destruct (mapM_nth encode1 ""%string [] texts t Hall) as [Hlen Hnth].
  cbn [mapM]. rewrite (Hnth i Hi). cbn [app mean_dim1 map np_array].
  rewrite ExtractorMore.data_np_array. cbn [app].
  unfold mean_dim1.
  rewrite (@nth_map_lt states vec _ _ _ [] []) by lia.
  cbn [length]. rewrite ExtractorMore.length_mean_states. reflexivity.
Qed.

End WithCollaborators.

(** X13 on the second text of the specification's scenario. *)
Lemma row_is_embedding_of_text_alone_witness :
  rowwise char_tokenizer id_encoder encode1 /\
  (exists arr,
      fst (get_model_embeddings char_tokenizer id_encoder 1
                                two_texts world0) = Ok arr /\
      fst (get_model_embeddings char_tokenizer id_encoder 1
                                ["bad movie"%string] world0) =
      Ok (mk_ndarray [1; 1] [nth 1 (data arr) []])) /\
  1 < length two_texts.
Proof.
  split; [exact Instances.toy_rowwise|].
  assert (Hi : 1 < length two_texts) by (simpl; lia).
  split; [|exact Hi].
  destruct (fst (get_model_embeddings char_tokenizer id_encoder 1
                                      two_texts world0))
    as [arr|e] eqn:Hrun; [|vm_compute in Hrun; discriminate Hrun].
  exists arr. split; [reflexivity|].
  exact (row_is_embedding_of_text_alone char_tokenizer id_encoder 1 encode1
           two_texts world0 world0 arr 1 Instances.toy_rowwise Hrun Hi).
Defined.

End RowwiseMore.
